(** * Propositional-logic expression trees ([Logic/Expression.py])

    A shallow embedding of the [Expression] class hierarchy: the five
    connectives [Not], [Or], [And], [Conditional], [BiConditional], their
    [truth_value] properties, the duck-typed helper [_is_true], the textual
    rendering [__str__] and the rewrite methods.

    Evaluation lives in a small monad that records every call of [_is_true]
    and carries Python exceptions; construction of new objects lives in a
    state monad over an object store. *)

From Stdlib Require Import Bool List String ZArith Lia DecimalString.
From ExtLib Require Import Structures.Monad.
Import ListNotations.
Import MonadNotation.
Local Open Scope monad_scope.
Local Open Scope string_scope.

(** ** Python values *)

(** Exceptions the module can meet.  [AttributeError] is the one [_is_true]
    catches; [UserError] stands for whatever an operand of a class defined
    elsewhere raises from its own [truth_value]. *)
Inductive exn : Type :=
| AttributeError
| TypeError
| IndexError
| UserError (name : string).

Inductive outcome (A : Type) : Type :=
| Ret (a : A)
| Raise (e : exn).
Arguments Ret {A} a.
Arguments Raise {A} e.

(** Operands that are not instances of the five connectives.  [Duck] is an
    object of a class defined outside the module that exposes a
    [truth_value] attribute: [repr] is what [str] gives for it, [tv] what
    reading the attribute does. *)
Inductive leaf : Type :=
| PyBool (b : bool)
| PyNone
| PyInt (n : Z)
| PyStr (s : string)
| Duck (repr : string) (tv : outcome bool).

(** The classes of the module that can be instantiated with operands. *)
Inductive cls : Type := CNot | COr | CAnd | CConditional | CBiConditional.

(** [cls.__name__] *)
Definition __name__ (k : cls) : string :=
  match k with
  | CNot => "Not"
  | COr => "Or"
  | CAnd => "And"
  | CConditional => "Conditional"
  | CBiConditional => "BiConditional"
  end.

(** An operand: a leaf or an instance of a connective, with its operands in
    the order of [scope]. *)
Inductive operand : Type :=
| Leaf (l : leaf)
| Not (a : operand)
| Or (a b : operand)
| And (a b : operand)
| Conditional (a b : operand)
| BiConditional (a b : operand).

Definition pybool (b : bool) : operand := Leaf (PyBool b).

(** [self.__class__] of an instance of the module's classes. *)
Definition class_of (e : operand) : option cls :=
  match e with
  | Leaf _ => None
  | Not _ => Some CNot
  | Or _ _ => Some COr
  | And _ _ => Some CAnd
  | Conditional _ _ => Some CConditional
  | BiConditional _ _ => Some CBiConditional
  end.

(** [self.scope] *)
Definition scope (e : operand) : list operand :=
  match e with
  | Leaf _ => []
  | Not a => [a]
  | Or a b | And a b | Conditional a b | BiConditional a b => [a; b]
  end.

(** [isinstance(x, Not)] *)
Definition isinstance_Not (x : operand) : bool :=
  match x with Not _ => true | _ => false end.

(** Python's truth test, as applied by [not], [and], [or] and [if].  The
    classes of the module define neither [__bool__] nor [__len__], so their
    instances are true. *)
Definition truthy (x : operand) : bool :=
  match x with
  | Leaf (PyBool b) => b
  | Leaf PyNone => false
  | Leaf (PyInt n) => negb (n =? 0)%Z
  | Leaf (PyStr s) => negb (s =? "")
  | Leaf (Duck _ _) => true
  | _ => true
  end.

(** ** The evaluation monad

    A computation yields the list of operands handed to [_is_true], in call
    order, and either a value or a raised exception. *)
Definition M (A : Type) : Type := (list operand * outcome A)%type.

Definition M_ret {A} (a : A) : M A := ([], Ret a).

Definition M_bind {A B} (m : M A) (f : A -> M B) : M B :=
  match m with
  | (t, Ret a) => let (t', r) := f a in ((t ++ t')%list, r)
  | (t, Raise e) => (t, Raise e)
  end.

#[global] Instance Monad_M : Monad M :=
  {| ret := @M_ret; bind := @M_bind |}.

Definition raise {A} (e : exn) : M A := ([], Raise e).

(** Records that [exp] is being resolved. *)
Definition resolving (exp : operand) : M unit := ([exp], Ret tt).

(** [try: m  except AttributeError: h] *)
Definition try_except_AttributeError {A} (m h : M A) : M A :=
  match m with
  | (t, Raise AttributeError) => let (t', r) := h in ((t ++ t')%list, r)
  | _ => m
  end.

Definition resolved {A} (m : M A) : list operand := fst m.
Definition result {A} (m : M A) : outcome A := snd m.

(** Conditions of an [if]: the truth test of a value, [not], and the
    short-circuit [and] and [or]. *)
Definition test (m : M operand) : M bool := x <- m ;; ret (truthy x).
Definition not_ (c : M bool) : M bool := b <- c ;; ret (negb b).
Definition and_ (c1 c2 : M bool) : M bool :=
  b <- c1 ;; if b then c2 else ret false.
Definition or_ (c1 c2 : M bool) : M bool :=
  b <- c1 ;; if b then ret true else c2.

(** ** Evaluation *)

(** The body of [Expression._is_true], over the attribute lookup [tv]. *)
Definition is_true_with (tv : operand -> M operand) (exp : operand) : M operand :=
  resolving exp ;;
  try_except_AttributeError (tv exp) (ret exp).

(** Reading the attribute [truth_value] of an operand. *)
Fixpoint truth_value (self : operand) : M operand :=
  match self with
  | Leaf (Duck _ (Ret b)) => ret (pybool b)
  | Leaf (Duck _ (Raise e)) => raise e
  | Leaf _ => raise AttributeError
  | Not a =>
      c <- not_ (test (is_true_with truth_value a)) ;;
      ret (pybool c)
  | Or a b =>
      c <- and_ (not_ (test (is_true_with truth_value a)))
                (not_ (test (is_true_with truth_value b))) ;;
      if c then ret (pybool false) else ret (pybool true)
  | And a b =>
      c <- and_ (test (is_true_with truth_value a))
                (test (is_true_with truth_value b)) ;;
      if c then ret (pybool true) else ret (pybool false)
  | Conditional a b =>
      c <- or_ (not_ (test (is_true_with truth_value a)))
               (test (is_true_with truth_value b)) ;;
      if c then ret (pybool true) else ret (pybool false)
  | BiConditional a b =>
      c <- or_ (and_ (test (is_true_with truth_value a))
                     (test (is_true_with truth_value b)))
               (not_ (or_ (test (is_true_with truth_value a))
                          (test (is_true_with truth_value b)))) ;;
      if c then ret (pybool true) else ret (pybool false)
  end.

(** [Expression._is_true] *)
Definition _is_true (exp : operand) : M operand := is_true_with truth_value exp.

(** ** Textual rendering *)

(** [str] of the operands that are not instances of the module's classes. *)
Definition str_leaf (l : leaf) : string :=
  match l with
  | PyBool true => "True"
  | PyBool false => "False"
  | PyNone => "None"
  | PyInt n => NilZero.string_of_int (Z.to_int n)
  | PyStr s => s
  | Duck repr _ => repr
  end.

(** The loop of [Expression.__str__] over the operands still to print, each
    already turned into text by [str]; [i] is the index [enumerate] gives to
    the first of them and [l] is [len(self.scope) - 1]. *)
Fixpoint str_loop (l i : Z) (items : list string) (string : String.string)
  : String.string :=
  match items with
  | [] => string
  | s :: rest =>
      str_loop l (i + 1) rest
        (if (i <? l)%Z then string ++ (s ++ ", ") else string ++ s)
  end.

(** The body of [Expression.__str__] for class [k] and operand texts [items]. *)
Definition __str__ (k : cls) (items : list string) : string :=
  let string := __name__ k ++ "(" in
  let l := (Z.of_nat (List.length items) - 1)%Z in
  let string := str_loop l 0 items string in
  string ++ ")".

(** The builtin [str]: [__str__] on the module's instances. *)
Fixpoint str (x : operand) : string :=
  match x with
  | Leaf l => str_leaf l
  | Not a => __str__ CNot [str a]
  | Or a b => __str__ COr [str a; str b]
  | And a b => __str__ CAnd [str a; str b]
  | Conditional a b => __str__ CConditional [str a; str b]
  | BiConditional a b => __str__ CBiConditional [str a; str b]
  end.

(** ** Methods of the connectives

    A method looked up on an operand whose class does not define it raises
    [AttributeError]. *)

(** [Not.can_be_double_negated] *)
Definition can_be_double_negated (self : operand) : outcome operand :=
  match self with
  | Not a => if isinstance_Not a then Ret (pybool true) else Ret (pybool false)
  | _ => Raise AttributeError
  end.

(** [Not.double_negation]: falling off the end of the body returns [None]. *)
Definition double_negation (self : operand) : outcome operand :=
  match self with
  | Not a =>
      match a with
      | Not aa => Ret aa
      | _ => Ret (Leaf PyNone)
      end
  | _ => Raise AttributeError
  end.

(** [Or.demorgans_law_or] *)
Definition demorgans_law_or (self : operand) : outcome operand :=
  match self with
  | Or a b => Ret (Not (And (Not a) (Not b)))
  | _ => Raise AttributeError
  end.

(** [And.demorgan_law_and] *)
Definition demorgan_law_and (self : operand) : outcome operand :=
  match self with
  | And a b => Ret (Not (Or (Not a) (Not b)))
  | _ => Raise AttributeError
  end.

(** [Conditional.disjunction_convert] *)
Definition disjunction_convert (self : operand) : outcome operand :=
  match self with
  | Conditional a b => Ret (Or (Not a) b)
  | _ => Raise AttributeError
  end.

(** [BiConditional.conditional_convert] *)
Definition conditional_convert (self : operand) : outcome operand :=
  match self with
  | BiConditional a b => Ret (And (Conditional a b) (Conditional b a))
  | _ => Raise AttributeError
  end.

(** [m().truth_value] for a method [m] that returns an operand. *)
Definition then_truth_value (r : outcome operand) : outcome operand :=
  match r with
  | Ret e => result (truth_value e)
  | Raise e => Raise e
  end.

(** ** The object store

    Instances as Python has them: an address in a store, where [__init__]
    writes the attributes [scope], [a] and [b] of a freshly made object.
    It is here that "a new tree" and "the receiver is not mutated" have a
    meaning. *)

Inductive pyval : Type :=
| Val (l : leaf)
| Ref (p : nat).

(** The attributes of an instance; [None] is an attribute not yet set. *)
Record instance : Type := mkInstance {
  klass : cls;
  attr_scope : option (list pyval);
  attr_a : option pyval;
  attr_b : option pyval
}.

Definition store : Type := list instance.

(** Computations over the store that may raise. *)
Definition St (A : Type) : Type := store -> outcome (A * store).

Definition St_ret {A} (a : A) : St A := fun h => Ret (a, h).

Definition St_bind {A B} (m : St A) (f : A -> St B) : St B :=
  fun h =>
    match m h with
    | Ret (a, h') => f a h'
    | Raise e => Raise e
    end.

#[global] Instance Monad_St : Monad St :=
  {| ret := @St_ret; bind := @St_bind |}.

Definition St_raise {A} (e : exn) : St A := fun _ => Raise e.

Fixpoint update {A} (l : list A) (i : nat) (x : A) : list A :=
  match l, i with
  | [], _ => []
  | _ :: t, O => x :: t
  | y :: t, S j => y :: update t j x
  end.

(** [object.__new__(k)]: a fresh instance of [k] with no attribute. *)
Definition new (k : cls) : St nat :=
  fun h => Ret (List.length h, (h ++ [mkInstance k None None None])%list).

(** The instance at an address.  Addresses come from [new] only, so the
    error case is never met by the code below. *)
Definition load (p : nat) : St instance :=
  fun h =>
    match nth_error h p with
    | Some o => Ret (o, h)
    | None => Raise AttributeError
    end.

Definition modify (p : nat) (f : instance -> instance) : St unit :=
  o <- load p ;;
  fun h => Ret (tt, update h p (f o)).

(** [self.scope = v], [self.a = v], [self.b = v] *)
Definition set_scope (self : nat) (v : list pyval) : St unit :=
  modify self (fun o => mkInstance (klass o) (Some v) (attr_a o) (attr_b o)).
Definition set_a (self : nat) (v : pyval) : St unit :=
  modify self (fun o => mkInstance (klass o) (attr_scope o) (Some v) (attr_b o)).
Definition set_b (self : nat) (v : pyval) : St unit :=
  modify self (fun o => mkInstance (klass o) (attr_scope o) (attr_a o) (Some v)).

(** Reading an attribute that was never set raises [AttributeError]. *)
Definition attr {A} (get : instance -> option A) (self : nat) : St A :=
  o <- load self ;;
  match get o with
  | Some v => ret v
  | None => St_raise AttributeError
  end.

(** [t[i]] on a tuple *)
Definition item (t : list pyval) (i : nat) : St pyval :=
  match nth_error t i with
  | Some v => ret v
  | None => St_raise IndexError
  end.

(** [Expression.__init__] *)
Definition Expression_init (self : nat) (scope : list pyval) : St unit :=
  set_scope self scope.

(** [UnaryExpression.__init__] *)
Definition UnaryExpression_init (self : nat) (a : pyval) : St unit :=
  Expression_init self [a] ;;
  s <- attr attr_scope self ;;
  x <- item s 0 ;;
  set_a self x.

(** [BinaryExpression.__init__] *)
Definition BinaryExpression_init (self : nat) (a b : pyval) : St unit :=
  Expression_init self [a; b] ;;
  s <- attr attr_scope self ;;
  x <- item s 0 ;;
  set_a self x ;;
  s <- attr attr_scope self ;;
  y <- item s 1 ;;
  set_b self y.

(** The constructor calls [Not(a)], [Or(a, b)], [And(a, b)],
    [Conditional(a, b)] and [BiConditional(a, b)]; each [__init__] only
    calls the one of its base class. *)
Definition new_Not (a : pyval) : St pyval :=
  self <- new CNot ;;
  UnaryExpression_init self a ;;
  ret (Ref self).

Definition new_binary (k : cls) (a b : pyval) : St pyval :=
  self <- new k ;;
  BinaryExpression_init self a b ;;
  ret (Ref self).

Definition new_Or := new_binary COr.
Definition new_And := new_binary CAnd.
Definition new_Conditional := new_binary CConditional.
Definition new_BiConditional := new_binary CBiConditional.

(** Looking a method of class [k] up on [self] and running its body. *)
Definition method {A} (k : cls) (body : nat -> St A) (self : pyval) : St A :=
  match self with
  | Val _ => St_raise AttributeError
  | Ref p =>
      o <- load p ;;
      if match klass o, k with
         | CNot, CNot | COr, COr | CAnd, CAnd
         | CConditional, CConditional | CBiConditional, CBiConditional => true
         | _, _ => false
         end
      then body p
      else St_raise AttributeError
  end.

Module Store.

(** [Or.demorgans_law_or]: [Not(And(Not(self.a), Not(self.b)))] *)
Definition demorgans_law_or : pyval -> St pyval :=
  method COr (fun self =>
    a <- attr attr_a self ;;
    na <- new_Not a ;;
    b <- attr attr_b self ;;
    nb <- new_Not b ;;
    c <- new_And na nb ;;
    new_Not c).

(** [And.demorgan_law_and]: [Not(Or(Not(self.a), Not(self.b)))] *)
Definition demorgan_law_and : pyval -> St pyval :=
  method CAnd (fun self =>
    a <- attr attr_a self ;;
    na <- new_Not a ;;
    b <- attr attr_b self ;;
    nb <- new_Not b ;;
    d <- new_Or na nb ;;
    new_Not d).

(** [Conditional.disjunction_convert]: [Or(Not(self.a), self.b)] *)
Definition disjunction_convert : pyval -> St pyval :=
  method CConditional (fun self =>
    a <- attr attr_a self ;;
    na <- new_Not a ;;
    b <- attr attr_b self ;;
    new_Or na b).

(** [BiConditional.conditional_convert]:
    [And(Conditional(self.a, self.b), Conditional(self.b, self.a))] *)
Definition conditional_convert : pyval -> St pyval :=
  method CBiConditional (fun self =>
    a <- attr attr_a self ;;
    b <- attr attr_b self ;;
    ab <- new_Conditional a b ;;
    b' <- attr attr_b self ;;
    a' <- attr attr_a self ;;
    ba <- new_Conditional b' a' ;;
    new_And ab ba).

End Store.

(** An instance as [__init__] leaves it. *)
Definition unary_instance (k : cls) (a : pyval) : instance :=
  mkInstance k (Some [a]) (Some a) None.
Definition binary_instance (k : cls) (a b : pyval) : instance :=
  mkInstance k (Some [a; b]) (Some a) (Some b).

(** The tree an instance of a binary class stands for. *)
Definition binary (k : cls) (a b : operand) : option operand :=
  match k with
  | CNot => None
  | COr => Some (Or a b)
  | CAnd => Some (And a b)
  | CConditional => Some (Conditional a b)
  | CBiConditional => Some (BiConditional a b)
  end.

(** [represents h v t]: in store [h], the value [v] is the root of the tree
    [t]. *)
Inductive represents (h : store) : pyval -> operand -> Prop :=
| rep_leaf l : represents h (Val l) (Leaf l)
| rep_Not p a ta :
    nth_error h p = Some (unary_instance CNot a) ->
    represents h a ta ->
    represents h (Ref p) (Not ta)
| rep_binary k p a b ta tb t :
    nth_error h p = Some (binary_instance k a b) ->
    binary k ta tb = Some t ->
    represents h a ta ->
    represents h b tb ->
    represents h (Ref p) t.

(** The four rewrite methods, the class each belongs to, its code on trees
    and on the store, and the result the specification names for it. *)
Inductive rewrite : Type :=
| DeMorganOr | DeMorganAnd | DisjunctionConvert | ConditionalConvert.

Definition receiver_class (w : rewrite) : cls :=
  match w with
  | DeMorganOr => COr
  | DeMorganAnd => CAnd
  | DisjunctionConvert => CConditional
  | ConditionalConvert => CBiConditional
  end.

Definition run_tree (w : rewrite) : operand -> outcome operand :=
  match w with
  | DeMorganOr => demorgans_law_or
  | DeMorganAnd => demorgan_law_and
  | DisjunctionConvert => disjunction_convert
  | ConditionalConvert => conditional_convert
  end.

Definition run_store (w : rewrite) : pyval -> St pyval :=
  match w with
  | DeMorganOr => Store.demorgans_law_or
  | DeMorganAnd => Store.demorgan_law_and
  | DisjunctionConvert => Store.disjunction_convert
  | ConditionalConvert => Store.conditional_convert
  end.

(** The structure the specification states each rewrite returns. *)
Definition specified_result (w : rewrite) (a b : operand) : operand :=
  match w with
  | DeMorganOr => Not (And (Not a) (Not b))
  | DeMorganAnd => Not (Or (Not a) (Not b))
  | DisjunctionConvert => Or (Not a) b
  | ConditionalConvert => And (Conditional a b) (Conditional b a)
  end.

(** ** Operands over booleans, and their classical value *)

(** Every leaf is [True] or [False]. *)
Fixpoint over_booleans (x : operand) : bool :=
  match x with
  | Leaf (PyBool _) => true
  | Leaf _ => false
  | Not a => over_booleans a
  | Or a b | And a b | Conditional a b | BiConditional a b =>
      over_booleans a && over_booleans b
  end.

(** The operand has a [truth_value] attribute. *)
Definition has_truth_value (x : operand) : bool :=
  match x with
  | Leaf (Duck _ _) => true
  | Leaf _ => false
  | _ => true
  end.

Definition is_boolean (x : operand) : bool :=
  match x with
  | Leaf (PyBool _) => true
  | _ => false
  end.

(** The truth table reading of a formula whose leaves are booleans. *)
Fixpoint classical (x : operand) : bool :=
  match x with
  | Leaf l => truthy (Leaf l)
  | Not a => negb (classical a)
  | Or a b => classical a || classical b
  | And a b => classical a && classical b
  | Conditional a b => implb (classical a) (classical b)
  | BiConditional a b => Bool.eqb (classical a) (classical b)
  end.

(** ** Further vocabulary for the properties *)

(** No leaf is an object of a foreign class: every leaf is a boolean,
    [None], an integer or a string. *)
Fixpoint plain (x : operand) : bool :=
  match x with
  | Leaf (Duck _ _) => false
  | Leaf _ => true
  | Not a => plain a
  | Or a b | And a b | Conditional a b | BiConditional a b =>
      plain a && plain b
  end.


(** No [BiConditional] occurs in the operand. *)
Fixpoint biconditional_free (x : operand) : bool :=
  match x with
  | Leaf _ => true
  | Not a => biconditional_free a
  | Or a b | And a b | Conditional a b =>
      biconditional_free a && biconditional_free b
  | BiConditional _ _ => false
  end.

(** The number of operand slots in a tree: one for each [Not], two for each
    binary connective. *)
Fixpoint occurrences (x : operand) : nat :=
  match x with
  | Leaf _ => 0
  | Not a => 1 + occurrences a
  | Or a b | And a b | Conditional a b | BiConditional a b =>
      2 + occurrences a + occurrences b
  end.

(** [BiConditional(... BiConditional(BiConditional(False, True), True) ..., True)]
    with [n] connectives. *)
Fixpoint biconditional_chain (n : nat) : operand :=
  match n with
  | O => pybool false
  | S m => BiConditional (biconditional_chain m) (pybool true)
  end.

(** A value that can be stored in an instance created at address [n]: a
    leaf, or a reference to an instance that exists already. *)
Definition valid (n : nat) (v : pyval) : Prop :=
  match v with
  | Val _ => True
  | Ref q => q < n
  end.

(** The instance at address [p] is as a constructor call leaves it, and its
    operands were there before it. *)
Definition wf_instance (p : nat) (o : instance) : Prop :=
  (exists a, o = unary_instance CNot a /\ valid p a) \/
  (exists k a b,
      k <> CNot /\ o = binary_instance k a b /\ valid p a /\ valid p b).

Definition wf_store (h : store) : Prop :=
  forall p o, nth_error h p = Some o -> wf_instance p o.

(** Evaluating the constructor expression that spells the tree [t], such as
    [Or(Not(True), False)]: Python evaluates the arguments of a call from
    left to right, then makes the call. *)
Fixpoint construct (t : operand) : St pyval :=
  match t with
  | Leaf l => ret (Val l)
  | Not a => x <- construct a ;; new_Not x
  | Or a b => x <- construct a ;; y <- construct b ;; new_Or x y
  | And a b => x <- construct a ;; y <- construct b ;; new_And x y
  | Conditional a b =>
      x <- construct a ;; y <- construct b ;; new_Conditional x y
  | BiConditional a b =>
      x <- construct a ;; y <- construct b ;; new_BiConditional x y
  end.

(** A computation that, when it returns, leaves the store as it found it. *)
Definition read_only {A} (m : St A) : Prop :=
  forall h r h', m h = Ret (r, h') -> h' = h.

Module StoreNot.

(** [isinstance(v, Not)] for a value of the store. *)
Definition isinstance_Not (v : pyval) : St bool :=
  match v with
  | Val _ => ret false
  | Ref q =>
      o <- load q ;;
      ret (match klass o with CNot => true | _ => false end)
  end.

(** [v.a] for a value [v]: leaves have no attribute [a]. *)
Definition dot_a (v : pyval) : St pyval :=
  match v with
  | Val _ => St_raise AttributeError
  | Ref q => attr attr_a q
  end.

(** [Not.can_be_double_negated] *)
Definition can_be_double_negated : pyval -> St pyval :=
  method CNot (fun self =>
    a <- attr attr_a self ;;
    c <- isinstance_Not a ;;
    if c then ret (Val (PyBool true)) else ret (Val (PyBool false))).

(** [Not.double_negation] *)
Definition double_negation : pyval -> St pyval :=
  method CNot (fun self =>
    a <- attr attr_a self ;;
    c <- isinstance_Not a ;;
    if c then
      a' <- attr attr_a self ;;
      dot_a a'
    else ret (Val PyNone)).

End StoreNot.

(** ** Evaluation on the object store

    The same [truth_value] properties, read on instances in a store.  The
    recursion follows references, so it is bounded by a number of nested
    calls; [None] is an evaluation that needed more. *)

(** The nesting of a tree: what the evaluation of it needs as call depth. *)
Fixpoint depth (x : operand) : nat :=
  match x with
  | Leaf _ => 0
  | Not a => S (depth a)
  | Or a b | And a b | Conditional a b | BiConditional a b =>
      S (Nat.max (depth a) (depth b))
  end.

Module StoreEval.

Definition R (A : Type) : Type := option (outcome A).

Definition R_ret {A} (a : A) : R A := Some (Ret a).

Definition R_bind {A B} (m : R A) (f : A -> R B) : R B :=
  match m with
  | Some (Ret a) => f a
  | Some (Raise e) => Some (Raise e)
  | None => None
  end.

#[global] Instance Monad_R : Monad R :=
  {| ret := @R_ret; bind := @R_bind |}.

Definition raise {A} (e : exn) : R A := Some (Raise e).

(** [try: m  except AttributeError: h] *)
Definition try_except_AttributeError {A} (m h : R A) : R A :=
  match m with
  | Some (Raise AttributeError) => h
  | _ => m
  end.

(** Reading the store: the value a store computation gives in [h]. *)
Definition read {A} (m : St A) (h : store) : R A :=
  match m h with
  | Ret (a, _) => Some (Ret a)
  | Raise e => Some (Raise e)
  end.

(** Python's truth test on a value of the store: instances are true. *)
Definition truthy (v : pyval) : bool :=
  match v with
  | Val (PyBool b) => b
  | Val PyNone => false
  | Val (PyInt n) => negb (n =? 0)%Z
  | Val (PyStr s) => negb (s =? "")
  | Val (Duck _ _) => true
  | Ref _ => true
  end.

Definition test (m : R pyval) : R bool := x <- m ;; ret (truthy x).
Definition not_ (c : R bool) : R bool := b <- c ;; ret (negb b).
Definition and_ (c1 c2 : R bool) : R bool :=
  b <- c1 ;; if b then c2 else ret false.
Definition or_ (c1 c2 : R bool) : R bool :=
  b <- c1 ;; if b then ret true else c2.

Definition vbool (b : bool) : pyval := Val (PyBool b).

(** The body of [Expression._is_true], over the attribute lookup [tv]. *)
Definition is_true_with (tv : pyval -> R pyval) (exp : pyval) : R pyval :=
  try_except_AttributeError (tv exp) (ret exp).

(** [self._is_true(self.a)] and [self._is_true(self.b)]: the attribute is
    read, then resolved. *)
Definition resolve (tv : pyval -> R pyval) (get : instance -> option pyval)
           (h : store) (self : nat) : R pyval :=
  x <- read (attr get self) h ;;
  is_true_with tv x.

(** Reading the attribute [truth_value] of a value, with [fuel] nested
    calls allowed. *)
Fixpoint truth_value (fuel : nat) (h : store) (self : pyval) : R pyval :=
  match fuel with
  | O => None
  | S n =>
      match self with
      | Val (Duck _ (Ret b)) => ret (vbool b)
      | Val (Duck _ (Raise e)) => raise e
      | Val _ => raise AttributeError
      | Ref p =>
          o <- read (load p) h ;;
          let a := resolve (truth_value n h) attr_a h p in
          let b := resolve (truth_value n h) attr_b h p in
          match klass o with
          | CNot =>
              c <- not_ (test a) ;;
              ret (vbool c)
          | COr =>
              c <- and_ (not_ (test a)) (not_ (test b)) ;;
              if c then ret (vbool false) else ret (vbool true)
          | CAnd =>
              c <- and_ (test a) (test b) ;;
              if c then ret (vbool true) else ret (vbool false)
          | CConditional =>
              c <- or_ (not_ (test a)) (test b) ;;
              if c then ret (vbool true) else ret (vbool false)
          | CBiConditional =>
              c <- or_ (and_ (test a) (test b))
                       (not_ (or_ (test a) (test b))) ;;
              if c then ret (vbool true) else ret (vbool false)
          end
      end
  end.

(** [Expression._is_true] *)
Definition _is_true (fuel : nat) (h : store) (exp : pyval) : R pyval :=
  is_true_with (truth_value fuel h) exp.

End StoreEval.

(** The store evaluation [r] and the tree evaluation [o] end alike: with
    the same exception, or with a value that stands for the tree's. *)
Definition agree (h : store) (r : StoreEval.R pyval) (o : outcome operand)
  : Prop :=
  match o with
  | Ret t => exists v, r = Some (Ret v) /\ represents h v t
  | Raise e => r = Some (Raise e)
  end.

(** * Properties *)

(** ** The evaluation monad *)

Lemma result_bind {A B} (m : M A) (f : A -> M B) :
  result (bind m f) =
  match result m with
  | Ret a => result (f a)
  | Raise e => Raise e
  end.
Proof.
  destruct m as [t [a | e]]; cbn; [destruct (f a) |]; reflexivity.
Qed.

Lemma resolved_bind {A B} (m : M A) (f : A -> M B) :
  resolved (bind m f) =
  match result m with
  | Ret a => (resolved m ++ resolved (f a))%list
  | Raise e => resolved m
  end.
Proof.
  destruct m as [t [a | e]]; cbn; [destruct (f a) |]; reflexivity.
Qed.

Lemma M_eta {A} (m : M A) : m = (resolved m, result m).
Proof. destruct m; reflexivity. Qed.

(** [_is_true] logs its operand, then gives the attribute if there is one
    and the operand itself otherwise. *)
Lemma result_is_true (x : operand) :
  result (_is_true x) =
  match result (truth_value x) with
  | Raise AttributeError => Ret x
  | r => r
  end.
Proof.
  unfold _is_true, is_true_with.
  rewrite result_bind. cbn [resolving result snd].
  destruct (truth_value x) as [t [v | []]]; reflexivity.
Qed.

Lemma resolved_is_true (x : operand) :
  resolved (_is_true x) = x :: resolved (truth_value x).
Proof.
  unfold _is_true, is_true_with.
  rewrite resolved_bind. cbn [resolving result resolved snd fst app].
  destruct (truth_value x) as [t [v | []]]; cbn; rewrite ?app_nil_r; reflexivity.
Qed.

#[local] Arguments _is_true : simpl never.

(** [_is_true] never lets an [AttributeError] out. *)
Lemma is_true_no_AttributeError (x : operand) :
  result (_is_true x) <> Raise AttributeError.
Proof.
  rewrite result_is_true.
  destruct (result (truth_value x)) as [v | []]; discriminate.
Qed.

(** The results of the five properties, in terms of the resolved operands. *)
Lemma result_Not (a : operand) :
  result (truth_value (Not a)) =
  match result (_is_true a) with
  | Ret x => Ret (pybool (negb (truthy x)))
  | Raise e => Raise e
  end.
Proof.
  cbn [truth_value]. fold (_is_true a). unfold not_, test.
  rewrite !result_bind.
  destruct (result (_is_true a)); reflexivity.
Qed.

Lemma result_Or (a b : operand) :
  result (truth_value (Or a b)) =
  match result (_is_true a) with
  | Ret x =>
      if truthy x then Ret (pybool true)
      else match result (_is_true b) with
           | Ret y => Ret (pybool (truthy y))
           | Raise e => Raise e
           end
  | Raise e => Raise e
  end.
Proof.
  cbn [truth_value]. fold (_is_true a) (_is_true b). unfold and_, not_, test.
  rewrite !result_bind.
  destruct (result (_is_true a)) as [x | e]; [| reflexivity].
  cbn [result snd ret Monad_M M_ret].
  destruct (truthy x); cbn [negb]; [reflexivity |].
  rewrite !result_bind.
  destruct (result (_is_true b)) as [y | e]; [| reflexivity].
  cbn. destruct (truthy y); reflexivity.
Qed.

Lemma result_And (a b : operand) :
  result (truth_value (And a b)) =
  match result (_is_true a) with
  | Ret x =>
      if truthy x
      then match result (_is_true b) with
           | Ret y => Ret (pybool (truthy y))
           | Raise e => Raise e
           end
      else Ret (pybool false)
  | Raise e => Raise e
  end.
Proof.
  cbn [truth_value]. fold (_is_true a) (_is_true b). unfold and_, test.
  rewrite !result_bind.
  destruct (result (_is_true a)) as [x | e]; [| reflexivity].
  cbn [result snd ret Monad_M M_ret].
  destruct (truthy x); [| reflexivity].
  rewrite !result_bind.
  destruct (result (_is_true b)) as [y | e]; [| reflexivity].
  cbn. destruct (truthy y); reflexivity.
Qed.

Lemma result_Conditional (a b : operand) :
  result (truth_value (Conditional a b)) =
  match result (_is_true a) with
  | Ret x =>
      if truthy x
      then match result (_is_true b) with
           | Ret y => Ret (pybool (truthy y))
           | Raise e => Raise e
           end
      else Ret (pybool true)
  | Raise e => Raise e
  end.
Proof.
  cbn [truth_value]. fold (_is_true a) (_is_true b). unfold or_, not_, test.
  rewrite !result_bind.
  destruct (result (_is_true a)) as [x | e]; [| reflexivity].
  cbn [result snd ret Monad_M M_ret].
  destruct (truthy x); cbn [negb]; [| reflexivity].
  rewrite !result_bind.
  destruct (result (_is_true b)) as [y | e]; [| reflexivity].
  cbn. destruct (truthy y); reflexivity.
Qed.

(** Either branch of the condition of [BiConditional.truth_value] resolves
    [b] exactly when it has to know it, so the result depends on both
    operands whatever [a] is. *)
Lemma result_BiConditional (a b : operand) :
  result (truth_value (BiConditional a b)) =
  match result (_is_true a) with
  | Ret x =>
      match result (_is_true b) with
      | Ret y => Ret (pybool (Bool.eqb (truthy x) (truthy y)))
      | Raise e => Raise e
      end
  | Raise e => Raise e
  end.
Proof.
  cbn [truth_value]. fold (_is_true a) (_is_true b).
  unfold or_, and_, not_, test.
  destruct (result (_is_true a)) as [x | e] eqn:Ea;
    [| now rewrite !result_bind, Ea].
  destruct (result (_is_true b)) as [y | e] eqn:Eb.
  - destruct (truthy x) eqn:Tx, (truthy y) eqn:Ty;
      repeat (rewrite ?result_bind, ?Ea, ?Eb, ?Tx, ?Ty;
              cbn [result snd ret Monad_M M_ret negb]);
      reflexivity.
  - destruct (truthy x) eqn:Tx;
      repeat (rewrite ?result_bind, ?Ea, ?Eb, ?Tx;
              cbn [result snd ret Monad_M M_ret negb]);
      reflexivity.
Qed.

Lemma result_is_true_Not (a : operand) :
  result (_is_true (Not a)) = result (truth_value (Not a)).
Proof.
  rewrite result_is_true, result_Not.
  destruct (result (_is_true a)) as [x | e] eqn:E; [reflexivity |].
  destruct e; try reflexivity.
  now destruct (is_true_no_AttributeError a).
Qed.

(** The property of an instance of a connective never raises
    [AttributeError], so [_is_true] on it gives the property. *)
Lemma result_is_true_expression (e : operand) :
  class_of e <> None ->
  result (_is_true e) = result (truth_value e).
Proof.
  intros Hc. rewrite result_is_true.
  destruct e as [l | a | a b | a b | a b | a b]; [now destruct Hc | ..];
    [ rewrite result_Not | rewrite result_Or | rewrite result_And
    | rewrite result_Conditional | rewrite result_BiConditional ];
    pose proof (is_true_no_AttributeError a) as Ha;
    try pose proof (is_true_no_AttributeError b) as Hb;
    destruct (result (_is_true a)) as [x | []]; try reflexivity;
    try congruence;
    try (destruct (truthy x); try reflexivity);
    destruct (result (_is_true b)) as [y | []]; try reflexivity; congruence.
Qed.

(** ** Formulas over booleans evaluate to their truth-table value *)

Lemma is_true_classical (x : operand) :
  over_booleans x = true ->
  result (_is_true x) = Ret (pybool (classical x)).
Proof.
  induction x as [l | a IHa | a IHa b IHb | a IHa b IHb
                 | a IHa b IHb | a IHa b IHb]; cbn [over_booleans]; intros Hb.
  - destruct l; try discriminate. reflexivity.
  - rewrite result_is_true_Not, result_Not, (IHa Hb). reflexivity.
  - apply andb_prop in Hb as [Ha Hb].
    rewrite result_is_true_expression by discriminate.
    rewrite result_Or, (IHa Ha), (IHb Hb). cbn.
    destruct (classical a), (classical b); reflexivity.
  - apply andb_prop in Hb as [Ha Hb].
    rewrite result_is_true_expression by discriminate.
    rewrite result_And, (IHa Ha), (IHb Hb). cbn.
    destruct (classical a), (classical b); reflexivity.
  - apply andb_prop in Hb as [Ha Hb].
    rewrite result_is_true_expression by discriminate.
    rewrite result_Conditional, (IHa Ha), (IHb Hb). cbn.
    destruct (classical a), (classical b); reflexivity.
  - apply andb_prop in Hb as [Ha Hb].
    rewrite result_is_true_expression by discriminate.
    rewrite result_BiConditional, (IHa Ha), (IHb Hb). reflexivity.
Qed.

Lemma truth_value_classical (e : operand) :
  class_of e <> None ->
  over_booleans e = true ->
  result (truth_value e) = Ret (pybool (classical e)).
Proof.
  intros Hc Hb.
  rewrite <- result_is_true_expression by assumption.
  now apply is_true_classical.
Qed.

(** ** Truth tables *)

(** C1: over boolean leaves [a] and [b], [And], [Or], [Conditional],
    [BiConditional] and [Not] evaluate to [a and b], [a or b],
    [not a or b], [a == b] and [not a]. *)
Theorem truth_tables (a b : bool) :
  result (truth_value (And (pybool a) (pybool b))) = Ret (pybool (a && b)) /\
  result (truth_value (Or (pybool a) (pybool b))) = Ret (pybool (a || b)) /\
  result (truth_value (Conditional (pybool a) (pybool b)))
    = Ret (pybool (negb a || b)) /\
  result (truth_value (BiConditional (pybool a) (pybool b)))
    = Ret (pybool (Bool.eqb a b)) /\
  result (truth_value (Not (pybool a))) = Ret (pybool (negb a)).
Proof.
  destruct a, b; repeat split; reflexivity.
Qed.

(** The nested formula of the specification's test list. *)
Example nested_expression :
  result (truth_value (And (Or (pybool true) (pybool false))
                           (Not (pybool false)))) = Ret (pybool true).
Proof. reflexivity. Qed.

(** ** The rewrites preserve the truth value *)

(** The rewrites agree with their receiver on every pair of operands, also
    on those that are no booleans and on those whose resolution raises. *)
Lemma demorgans_law_or_preserves (a b : operand) :
  then_truth_value (demorgans_law_or (Or a b)) = result (truth_value (Or a b)).
Proof.
  cbn [demorgans_law_or then_truth_value].
  rewrite result_Not, result_is_true_expression by discriminate.
  rewrite result_And, result_Or, !result_is_true_Not, !result_Not.
  destruct (result (_is_true a)) as [x | e]; [| reflexivity]. cbn.
  destruct (truthy x); cbn; [reflexivity |].
  destruct (result (_is_true b)) as [y | e]; [| reflexivity]. cbn.
  destruct (truthy y); reflexivity.
Qed.

Lemma demorgan_law_and_preserves (a b : operand) :
  then_truth_value (demorgan_law_and (And a b)) = result (truth_value (And a b)).
Proof.
  cbn [demorgan_law_and then_truth_value].
  rewrite result_Not, result_is_true_expression by discriminate.
  rewrite result_Or, result_And, !result_is_true_Not, !result_Not.
  destruct (result (_is_true a)) as [x | e]; [| reflexivity]. cbn.
  destruct (truthy x); cbn; [| reflexivity].
  destruct (result (_is_true b)) as [y | e]; [| reflexivity]. cbn.
  destruct (truthy y); reflexivity.
Qed.

Lemma disjunction_convert_preserves (a b : operand) :
  then_truth_value (disjunction_convert (Conditional a b))
  = result (truth_value (Conditional a b)).
Proof.
  cbn [disjunction_convert then_truth_value].
  rewrite result_Or, result_Conditional, result_is_true_Not, result_Not.
  destruct (result (_is_true a)) as [x | e]; [| reflexivity]. cbn.
  destruct (truthy x); reflexivity.
Qed.

Lemma conditional_convert_preserves (a b : operand) :
  then_truth_value (conditional_convert (BiConditional a b))
  = result (truth_value (BiConditional a b)).
Proof.
  cbn [conditional_convert then_truth_value].
  rewrite result_And, !result_is_true_expression by discriminate.
  rewrite !result_Conditional, result_BiConditional.
  destruct (result (_is_true a)) as [x | e]; [| reflexivity].
  destruct (result (_is_true b)) as [y | e];
    destruct (truthy x); cbn; try reflexivity.
  - destruct (truthy y); reflexivity.
  - destruct (truthy y); reflexivity.
Qed.

(** C2: for booleans [a] and [b], [Or(a,b)] and [And(a,b)] have the truth
    value of their De Morgan rewrites, which is a boolean. *)
Theorem demorgan_equivalence (a b : bool) :
  (result (truth_value (Or (pybool a) (pybool b)))
     = then_truth_value (demorgans_law_or (Or (pybool a) (pybool b))) /\
   result (truth_value (Or (pybool a) (pybool b))) = Ret (pybool (a || b))) /\
  (result (truth_value (And (pybool a) (pybool b)))
     = then_truth_value (demorgan_law_and (And (pybool a) (pybool b))) /\
   result (truth_value (And (pybool a) (pybool b))) = Ret (pybool (a && b))).
Proof.
  rewrite demorgans_law_or_preserves, demorgan_law_and_preserves.
  destruct a, b; repeat split; reflexivity.
Qed.

(** C3: for booleans [a] and [b], [Conditional(a,b)] has the truth value of
    [disjunction_convert()] and [BiConditional(a,b)] that of
    [conditional_convert()]. *)
Theorem conversion_equivalence (a b : bool) :
  (result (truth_value (Conditional (pybool a) (pybool b)))
     = then_truth_value (disjunction_convert (Conditional (pybool a) (pybool b))) /\
   result (truth_value (Conditional (pybool a) (pybool b)))
     = Ret (pybool (implb a b))) /\
  (result (truth_value (BiConditional (pybool a) (pybool b)))
     = then_truth_value (conditional_convert (BiConditional (pybool a) (pybool b))) /\
   result (truth_value (BiConditional (pybool a) (pybool b)))
     = Ret (pybool (Bool.eqb a b))).
Proof.
  rewrite disjunction_convert_preserves, conditional_convert_preserves.
  destruct a, b; repeat split; reflexivity.
Qed.

(** ** Double negation *)

Lemma isinstance_Not_spec (a : operand) :
  isinstance_Not a = true <-> exists x, a = Not x.
Proof.
  split.
  - destruct a; try discriminate. intros _. now eexists.
  - intros [x ->]. reflexivity.
Qed.

(** C4: [can_be_double_negated] of [Not(a)] is true exactly when [a] is a
    [Not]; then [double_negation()] gives the operand of the inner [Not];
    otherwise it gives [None] and raises nothing. *)
Theorem double_negation_contract (a : operand) :
  (can_be_double_negated (Not a) = Ret (pybool true) <-> exists x, a = Not x) /\
  (can_be_double_negated (Not a) = Ret (pybool false) <-> forall x, a <> Not x) /\
  (forall x, a = Not x -> double_negation (Not a) = Ret x) /\
  ((forall x, a <> Not x) -> double_negation (Not a) = Ret (Leaf PyNone)) /\
  can_be_double_negated (Not (Not (pybool true))) = Ret (pybool true) /\
  double_negation (Not (Not (pybool true))) = Ret (pybool true) /\
  can_be_double_negated (Not (pybool true)) = Ret (pybool false) /\
  double_negation (Not (pybool true)) = Ret (Leaf PyNone).
Proof.
  repeat split; try reflexivity.
  - cbn. destruct a; try discriminate. intros _. now eexists.
  - intros [x ->]. reflexivity.
  - cbn. destruct a; try discriminate; intros _ x; discriminate.
  - intros Hn. destruct a; try reflexivity. now destruct (Hn a).
  - intros x ->. reflexivity.
  - intros Hn. destruct a; try reflexivity. now destruct (Hn a).
Qed.

(** ** Operands without a [truth_value] *)

(** C5, as the specification states it, fails: the integer [5] is neither a
    boolean nor has a [truth_value], and [_is_true] returns it unchanged
    instead of raising; the enclosing [Not] then evaluates to [False]. *)
Lemma is_true_type_error_counterexample :
  is_boolean (Leaf (PyInt 5)) = false /\
  has_truth_value (Leaf (PyInt 5)) = false /\
  result (_is_true (Leaf (PyInt 5))) = Ret (Leaf (PyInt 5)) /\
  result (_is_true (Leaf (PyInt 5))) <> Raise TypeError /\
  result (truth_value (Not (Leaf (PyInt 5)))) = Ret (pybool false).
Proof.
  repeat split; try reflexivity. discriminate.
Qed.

(** C5, amended: an operand that is no boolean and has no [truth_value] is
    returned by [_is_true] as it is, with no exception; that call is the
    only resolution logged. *)
Theorem is_true_returns_operand (x : operand) :
  is_boolean x = false ->
  has_truth_value x = false ->
  _is_true x = ([x], Ret x) /\
  (forall e, result (_is_true x) <> Raise e).
Proof.
  intros _ Hv.
  assert (E : _is_true x = ([x], Ret x)).
  { destruct x as [[b | | n | s | r tv] | | | | |];
      try discriminate; reflexivity. }
  split; [exact E |]. intros e. rewrite E. discriminate.
Qed.

Lemma is_true_returns_operand_witness :
  _is_true (Leaf (PyStr "p")) = ([Leaf (PyStr "p")], Ret (Leaf (PyStr "p"))) /\
  (forall e, result (_is_true (Leaf (PyStr "p"))) <> Raise e).
Proof.
  apply (is_true_returns_operand (Leaf (PyStr "p"))); reflexivity.
Defined.

(** ** Short-circuit in [Or.truth_value] *)

(** C6, as the specification states it, fails: with [a = True] and an
    operand [b] whose [truth_value] raises, [Or(a, b).truth_value] resolves
    [a] only and returns [True]; the failure of [b] does not occur. *)
Lemma or_resolves_both_counterexample :
  let a := pybool true in
  let b := Leaf (Duck "b" (Raise (UserError "boom"))) in
  result (_is_true b) = Raise (UserError "boom") /\
  truth_value (Or a b) = ([a], Ret (pybool true)) /\
  ~ In b (resolved (truth_value (Or a b))).
Proof.
  cbv zeta. repeat split.
  cbn. intros [H | []]. discriminate.
Qed.

(** C6, amended: [Or(a, b).truth_value] always resolves [a] first.  When
    that raises or gives a true value, [b] is not resolved, and the result
    is the exception or [True]; only when [a] resolves to a false value is
    [b] resolved, and then a failure of [b] is the failure of the [Or]. *)
Theorem or_short_circuits (a b : operand) :
  truth_value (Or a b) =
  match result (_is_true a) with
  | Raise e => (resolved (_is_true a), Raise e)
  | Ret x =>
      if truthy x then (resolved (_is_true a), Ret (pybool true))
      else ((resolved (_is_true a) ++ resolved (_is_true b))%list,
            match result (_is_true b) with
            | Ret y => Ret (pybool (truthy y))
            | Raise e => Raise e
            end)
  end.
Proof.
  rewrite (M_eta (truth_value (Or a b))), result_Or.
  cbn [truth_value]. fold (_is_true a) (_is_true b). unfold and_, not_, test.
  destruct (result (_is_true a)) as [x | e] eqn:Ea.
  - destruct (truthy x) eqn:Tx.
    + repeat (rewrite ?resolved_bind, ?result_bind, ?Ea, ?Tx;
              cbn [result resolved fst snd ret Monad_M M_ret negb]).
      now rewrite !app_nil_r.
    + destruct (result (_is_true b)) as [y | e] eqn:Eb;
        repeat (rewrite ?resolved_bind, ?result_bind, ?Ea, ?Eb, ?Tx;
                cbn [result resolved fst snd ret Monad_M M_ret negb]).
      * destruct (truthy y);
          cbn [result resolved fst snd ret Monad_M M_ret negb];
          now rewrite !app_nil_r.
      * now rewrite !app_nil_r.
  - repeat (rewrite ?resolved_bind, ?result_bind, ?Ea;
            cbn [result resolved fst snd ret Monad_M M_ret negb]).
    reflexivity.
Qed.

(** ** Textual rendering *)

Lemma append_assoc (s1 s2 s3 : string) :
  (s1 ++ s2) ++ s3 = s1 ++ (s2 ++ s3).
Proof.
  induction s1 as [| c s1 IH]; cbn; [reflexivity | now rewrite IH].
Qed.

Lemma str_loop_cons (l i : Z) (s : string) (rest : list string)
      (string : String.string) :
  str_loop l i (s :: rest) string
  = str_loop l (i + 1) rest
      (if (i <? l)%Z then string ++ (s ++ ", ") else string ++ s).
Proof. reflexivity. Qed.

(** The loop puts [", "] after every item but the last. *)
Lemma str_loop_concat (items : list string) (i : Z) (string : String.string) :
  items <> [] ->
  str_loop (i + Z.of_nat (List.length items) - 1) i items string
  = string ++ concat ", " items.
Proof.
  revert i string.
  induction items as [| s rest IH]; intros i string Hne; [now destruct Hne |].
  destruct rest as [| s' rest].
  - cbn [str_loop List.length concat].
    replace (i + Z.of_nat 1 - 1)%Z with i by lia.
    now rewrite Z.ltb_irrefl.
  - rewrite str_loop_cons.
    assert (Hlt : (i <? i + Z.of_nat (List.length (s :: s' :: rest)) - 1)%Z = true).
    { apply Z.ltb_lt. cbn [List.length]. lia. }
    rewrite Hlt.
    replace (i + Z.of_nat (List.length (s :: s' :: rest)) - 1)%Z
      with (i + 1 + Z.of_nat (List.length (s' :: rest)) - 1)%Z
      by (cbn [List.length]; lia).
    rewrite IH by discriminate.
    change (concat ", " (s :: s' :: rest))
      with (s ++ ", " ++ concat ", " (s' :: rest)).
    now rewrite !append_assoc.
Qed.

Lemma __str__format (k : cls) (items : list string) :
  items <> [] ->
  __str__ k items = __name__ k ++ "(" ++ concat ", " items ++ ")".
Proof.
  intros Hne. unfold __str__.
  change (Z.of_nat (List.length items) - 1)%Z
    with (0 + Z.of_nat (List.length items) - 1)%Z.
  rewrite str_loop_concat by assumption.
  now rewrite !append_assoc.
Qed.

(** C8: the text of an instance of class [k] is the name of [k], an opening
    parenthesis, the texts of its operands separated by a comma and a space,
    and a closing parenthesis; a boolean leaf prints as [True] or [False];
    [str(And(True, False))] is ["And(True, False)"]. *)
Theorem str_format (e : operand) (k : cls) :
  class_of e = Some k ->
  str e = __name__ k ++ "(" ++ concat ", " (map str (scope e)) ++ ")" /\
  str (pybool true) = "True" /\
  str (pybool false) = "False" /\
  str (And (pybool true) (pybool false)) = "And(True, False)".
Proof.
  intros Hk. split; [| repeat split].
  destruct e; cbn [class_of] in Hk; try discriminate;
    injection Hk as <-; cbn [str scope map];
    apply __str__format; discriminate.
Qed.

Lemma str_format_witness :
  str (Or (Not (pybool false)) (Conditional (pybool true) (pybool false)))
  = "Or(Not(False), Conditional(True, False))" /\
  str (pybool true) = "True" /\
  str (pybool false) = "False" /\
  str (And (pybool true) (pybool false)) = "And(True, False)".
Proof.
  apply (str_format
           (Or (Not (pybool false)) (Conditional (pybool true) (pybool false)))
           COr).
  reflexivity.
Defined.

(** ** Strict booleans *)

(** C9: the [truth_value] of an instance of a connective whose leaves are
    all booleans is [True] or [False]; evaluation raises nothing. *)
Theorem truth_value_strict_boolean (e : operand) :
  class_of e <> None ->
  over_booleans e = true ->
  exists b : bool, result (truth_value e) = Ret (Leaf (PyBool b)).
Proof.
  intros Hc Hb. exists (classical e).
  now apply truth_value_classical.
Qed.

Lemma truth_value_strict_boolean_witness :
  exists b : bool,
    result (truth_value (BiConditional (Not (pybool true))
                                        (And (pybool false) (pybool true))))
    = Ret (Leaf (PyBool b)).
Proof.
  apply truth_value_strict_boolean; [discriminate | reflexivity].
Defined.

(** The result of a connective is a strict boolean whatever its leaves are,
    whenever evaluation returns. *)
Lemma truth_value_returns_bool (e : operand) (v : operand) :
  class_of e <> None ->
  result (truth_value e) = Ret v ->
  exists b : bool, v = pybool b.
Proof.
  intros Hc.
  destruct e as [l | a | a b | a b | a b | a b]; [now destruct Hc | ..];
    [ rewrite result_Not | rewrite result_Or | rewrite result_And
    | rewrite result_Conditional | rewrite result_BiConditional ];
    destruct (result (_is_true a)) as [x | ex]; try discriminate;
    try (destruct (truthy x));
    try (destruct (result (_is_true b)) as [y | ey]; try discriminate);
    intros [= <-]; eexists; reflexivity.
Qed.

(** C10: for [x] a boolean or a formula over booleans,
    [Not(Not(x)).double_negation()] is [x] itself, and resolving it gives
    the truth value of [Not(Not(x))]. *)
Theorem double_negation_preserves (x : operand) :
  over_booleans x = true ->
  double_negation (Not (Not x)) = Ret x /\
  result (_is_true x) = result (truth_value (Not (Not x))) /\
  exists b : bool, result (_is_true x) = Ret (pybool b).
Proof.
  intros Hb. split; [reflexivity |].
  rewrite result_Not, result_is_true_Not, result_Not.
  rewrite (is_true_classical x Hb). cbn.
  rewrite negb_involutive. split; [reflexivity | now eexists].
Qed.

Lemma double_negation_preserves_witness :
  double_negation (Not (Not (Or (pybool false) (pybool true))))
  = Ret (Or (pybool false) (pybool true)) /\
  result (_is_true (Or (pybool false) (pybool true)))
  = result (truth_value (Not (Not (Or (pybool false) (pybool true))))) /\
  exists b : bool,
    result (_is_true (Or (pybool false) (pybool true))) = Ret (pybool b).
Proof.
  apply (double_negation_preserves (Or (pybool false) (pybool true))).
  reflexivity.
Defined.

(** Without the restriction to booleans the truth value changes: [5]
    resolves to itself while [Not(Not(5))] evaluates to [True]. *)
Example double_negation_of_a_number :
  double_negation (Not (Not (Leaf (PyInt 5)))) = Ret (Leaf (PyInt 5)) /\
  result (_is_true (Leaf (PyInt 5))) = Ret (Leaf (PyInt 5)) /\
  result (truth_value (Not (Not (Leaf (PyInt 5))))) = Ret (pybool true).
Proof. repeat split. Qed.

(** ** The rewrites on the object store *)

Local Open Scope list_scope.

Lemma nth_error_ext {A} (h ext : list A) (p : nat) (o : A) :
  nth_error h p = Some o -> nth_error (h ++ ext) p = Some o.
Proof.
  intros Hp. rewrite nth_error_app1; [assumption |].
  apply nth_error_Some. congruence.
Qed.

Lemma nth_error_snoc {A} (h : list A) (o : A) :
  nth_error (h ++ [o]) (List.length h) = Some o.
Proof.
  rewrite nth_error_app2, Nat.sub_diag by lia. reflexivity.
Qed.

Lemma update_snoc {A} (h : list A) (o o' : A) :
  update (h ++ [o]) (List.length h) o' = (h ++ [o'])%list.
Proof.
  induction h as [| y h IH]; cbn; [reflexivity | now rewrite IH].
Qed.

(** Exposes the store passing of a sequence of statements. *)
Ltac st_unfold := cbn [bind ret Monad_St]; unfold St_bind, St_ret.

Lemma load_ok (h : store) (p : nat) (o : instance) :
  nth_error h p = Some o -> load p h = Ret (o, h).
Proof. intros Hp. unfold load. now rewrite Hp. Qed.

Lemma attr_ok {A} (get : instance -> option A) (h : store) (p : nat)
      (o : instance) (v : A) :
  nth_error h p = Some o -> get o = Some v -> attr get p h = Ret (v, h).
Proof.
  intros Hp Hg. unfold attr. st_unfold.
  rewrite (load_ok h p o Hp), Hg. reflexivity.
Qed.

Lemma modify_fresh (h : store) (o : instance) (f : instance -> instance) :
  modify (List.length h) f (h ++ [o]) = Ret (tt, (h ++ [f o])%list).
Proof.
  unfold modify. st_unfold.
  rewrite (load_ok _ _ _ (nth_error_snoc h o)), update_snoc. reflexivity.
Qed.

(** A constructor call adds one fully initialised instance at the end of
    the store and touches nothing else. *)
Lemma new_Not_spec (a : pyval) (h : store) :
  new_Not a h = Ret (Ref (List.length h), (h ++ [unary_instance CNot a])%list).
Proof.
  unfold new_Not, UnaryExpression_init, Expression_init, set_scope, set_a, new.
  st_unfold.
  rewrite modify_fresh. cbn [klass attr_scope attr_a attr_b].
  erewrite attr_ok by (apply nth_error_snoc || reflexivity).
  cbn [item nth_error]. st_unfold.
  rewrite modify_fresh. reflexivity.
Qed.

Lemma new_binary_spec (k : cls) (a b : pyval) (h : store) :
  new_binary k a b h
  = Ret (Ref (List.length h), (h ++ [binary_instance k a b])%list).
Proof.
  unfold new_binary, BinaryExpression_init, Expression_init,
    set_scope, set_a, set_b, new.
  st_unfold.
  rewrite modify_fresh. cbn [klass attr_scope attr_a attr_b].
  erewrite attr_ok by (apply nth_error_snoc || reflexivity).
  cbn [item nth_error]. st_unfold.
  rewrite modify_fresh. cbn [klass attr_scope attr_a attr_b].
  erewrite attr_ok by (apply nth_error_snoc || reflexivity).
  cbn [item nth_error]. st_unfold.
  rewrite modify_fresh. reflexivity.
Qed.

(** What a value stands for does not change when the store grows. *)
Lemma represents_ext (h ext : store) (v : pyval) (t : operand) :
  represents h v t -> represents (h ++ ext) v t.
Proof.
  induction 1 as [l | p a ta Hp _ IHa | k p a b ta tb t Hp Hk _ IHa _ IHb].
  - constructor.
  - eapply rep_Not; [apply nth_error_ext |]; eassumption.
  - eapply rep_binary; [apply nth_error_ext | ..]; eassumption.
Qed.

Lemma represents_new_Not (h : store) (a : pyval) (ta : operand) :
  represents h a ta ->
  represents (h ++ [unary_instance CNot a]) (Ref (List.length h)) (Not ta).
Proof.
  intros Ha. eapply rep_Not; [apply nth_error_snoc |].
  now apply represents_ext.
Qed.

Lemma represents_new_binary (h : store) (k : cls) (a b : pyval)
      (ta tb t : operand) :
  binary k ta tb = Some t ->
  represents h a ta ->
  represents h b tb ->
  represents (h ++ [binary_instance k a b]) (Ref (List.length h)) t.
Proof.
  intros Hk Ha Hb. eapply rep_binary; [apply nth_error_snoc | exact Hk | |];
    now apply represents_ext.
Qed.

(** Runs the statements of a method body over a store in which the
    receiver is known by [Hp]. *)
Ltac st_run Hp :=
  unfold new_Or, new_And, new_Conditional, new_BiConditional;
  repeat first
    [ rewrite new_Not_spec
    | rewrite new_binary_spec
    | erewrite attr_ok
        by first [ exact Hp
                 | repeat apply nth_error_ext; exact Hp
                 | reflexivity ] ].

Lemma method_ok {A} (k : cls) (body : nat -> St A) (h : store) (p : nat)
      (a b : pyval) :
  nth_error h p = Some (binary_instance k a b) ->
  method k body (Ref p) h = body p h.
Proof.
  intros Hp. unfold method. st_unfold.
  rewrite (load_ok _ _ _ Hp). now destruct k.
Qed.

Section Rewrites.

Variables (h : store) (p : nat) (a b : pyval).

(** What each method returns and what it leaves in the store: the new
    instances come after the old store, in the order of the calls. *)
Lemma demorgans_law_or_store :
  nth_error h p = Some (binary_instance COr a b) ->
  Store.demorgans_law_or (Ref p) h
  = Ret (Ref (List.length h + 3),
         h ++ [unary_instance CNot a;
               unary_instance CNot b;
               binary_instance CAnd (Ref (List.length h))
                                    (Ref (List.length h + 1));
               unary_instance CNot (Ref (List.length h + 2))]).
Proof.
  intros Hp. unfold Store.demorgans_law_or.
  rewrite (method_ok _ _ _ _ _ _ Hp). st_unfold. st_run Hp.
  rewrite !length_app. cbn [List.length].
  rewrite <- !app_assoc, <- ?Nat.add_assoc. reflexivity.
Qed.

Lemma demorgan_law_and_store :
  nth_error h p = Some (binary_instance CAnd a b) ->
  Store.demorgan_law_and (Ref p) h
  = Ret (Ref (List.length h + 3),
         h ++ [unary_instance CNot a;
               unary_instance CNot b;
               binary_instance COr (Ref (List.length h))
                                   (Ref (List.length h + 1));
               unary_instance CNot (Ref (List.length h + 2))]).
Proof.
  intros Hp. unfold Store.demorgan_law_and.
  rewrite (method_ok _ _ _ _ _ _ Hp). st_unfold. st_run Hp.
  rewrite !length_app. cbn [List.length].
  rewrite <- !app_assoc, <- ?Nat.add_assoc. reflexivity.
Qed.

Lemma disjunction_convert_store :
  nth_error h p = Some (binary_instance CConditional a b) ->
  Store.disjunction_convert (Ref p) h
  = Ret (Ref (List.length h + 1),
         h ++ [unary_instance CNot a;
               binary_instance COr (Ref (List.length h)) b]).
Proof.
  intros Hp. unfold Store.disjunction_convert.
  rewrite (method_ok _ _ _ _ _ _ Hp). st_unfold. st_run Hp.
  rewrite !length_app. cbn [List.length].
  rewrite <- !app_assoc, <- ?Nat.add_assoc. reflexivity.
Qed.

Lemma conditional_convert_store :
  nth_error h p = Some (binary_instance CBiConditional a b) ->
  Store.conditional_convert (Ref p) h
  = Ret (Ref (List.length h + 2),
         h ++ [binary_instance CConditional a b;
               binary_instance CConditional b a;
               binary_instance CAnd (Ref (List.length h))
                                    (Ref (List.length h + 1))]).
Proof.
  intros Hp. unfold Store.conditional_convert.
  rewrite (method_ok _ _ _ _ _ _ Hp). st_unfold. st_run Hp.
  rewrite !length_app. cbn [List.length].
  rewrite <- !app_assoc, <- ?Nat.add_assoc. reflexivity.
Qed.

End Rewrites.

Lemma nth_error_fresh {A} (h fresh : list A) (i : nat) :
  nth_error (h ++ fresh) (List.length h + i) = nth_error fresh i.
Proof.
  rewrite nth_error_app2 by lia. f_equal. lia.
Qed.

Lemma nth_error_fresh0 {A} (h fresh : list A) :
  nth_error (h ++ fresh) (List.length h) = nth_error fresh 0.
Proof.
  rewrite <- (nth_error_fresh h fresh 0). f_equal. lia.
Qed.

(** Builds the tree a reference stands for from the instances the store
    holds after the old part [h]. *)
Ltac rep_tree :=
  repeat first
    [ apply represents_ext; assumption
    | eapply rep_Not;
      [ first [rewrite nth_error_fresh | rewrite nth_error_fresh0];
        reflexivity | ]
    | eapply rep_binary;
      [ first [rewrite nth_error_fresh | rewrite nth_error_fresh0];
        reflexivity | reflexivity | | ] ].

(** C7: on a receiver of the right class whose operands stand for the trees
    [ta] and [tb], each rewrite returns a reference to a new instance that
    stands for the specified tree ([Not(And(Not(a), Not(b)))],
    [Not(Or(Not(a), Not(b)))], [Or(Not(a), b)],
    [And(Conditional(a,b), Conditional(b,a))]); the store it leaves is the
    old one followed by new instances, so the receiver keeps its [scope],
    [a] and [b] and still stands for the same tree. *)
Theorem rewrite_returns_new_tree (w : rewrite) (h : store) (p : nat)
        (a b : pyval) (ta tb self : operand) :
  nth_error h p = Some (binary_instance (receiver_class w) a b) ->
  represents h a ta ->
  represents h b tb ->
  binary (receiver_class w) ta tb = Some self ->
  run_tree w self = Ret (specified_result w ta tb) /\
  exists (r : nat) (fresh : store),
    run_store w (Ref p) h = Ret (Ref r, h ++ fresh) /\
    represents (h ++ fresh) (Ref r) (specified_result w ta tb) /\
    List.length h <= r /\
    nth_error (h ++ fresh) p
      = Some (binary_instance (receiver_class w) a b) /\
    represents (h ++ fresh) (Ref p) self.
Proof.
  intros Hp Ha Hb Hself.
  assert (Hrecv : represents h (Ref p) self)
    by (eapply rep_binary; eassumption).
  destruct w; cbn [receiver_class binary] in *; injection Hself as <-;
    (split; [reflexivity |]);
    cbn [run_store specified_result].
  - rewrite (demorgans_law_or_store _ _ _ _ Hp).
    do 2 eexists. split; [reflexivity |].
    split; [rep_tree |].
    split; [lia |].
    split; [now apply nth_error_ext | now apply represents_ext].
  - rewrite (demorgan_law_and_store _ _ _ _ Hp).
    do 2 eexists. split; [reflexivity |].
    split; [rep_tree |].
    split; [lia |].
    split; [now apply nth_error_ext | now apply represents_ext].
  - rewrite (disjunction_convert_store _ _ _ _ Hp).
    do 2 eexists. split; [reflexivity |].
    split; [rep_tree |].
    split; [lia |].
    split; [now apply nth_error_ext | now apply represents_ext].
  - rewrite (conditional_convert_store _ _ _ _ Hp).
    do 2 eexists. split; [reflexivity |].
    split; [rep_tree |].
    split; [lia |].
    split; [now apply nth_error_ext | now apply represents_ext].
Qed.

Lemma rewrite_returns_new_tree_witness :
  let h := [unary_instance CNot (Val (PyBool true));
            binary_instance COr (Ref 0) (Val (PyBool false))] in
  let self := Or (Not (pybool true)) (pybool false) in
  let t := Not (And (Not (Not (pybool true))) (Not (pybool false))) in
  demorgans_law_or self = Ret t /\
  exists (r : nat) (fresh : store),
    Store.demorgans_law_or (Ref 1) h = Ret (Ref r, h ++ fresh) /\
    represents (h ++ fresh) (Ref r) t /\
    List.length h <= r /\
    nth_error (h ++ fresh) 1
      = Some (binary_instance COr (Ref 0) (Val (PyBool false))) /\
    represents (h ++ fresh) (Ref 1) self.
Proof.
  cbv zeta.
  apply (rewrite_returns_new_tree DeMorganOr
           [unary_instance CNot (Val (PyBool true));
            binary_instance COr (Ref 0) (Val (PyBool false))]
           1 (Ref 0) (Val (PyBool false))
           (Not (pybool true)) (pybool false)).
  - reflexivity.
  - eapply rep_Not; [reflexivity | constructor].
  - constructor.
  - reflexivity.
Defined.

(** The same call, run: four instances are added after the two that were
    there, and the result is the last of them. *)
Example demorgans_law_or_run :
  Store.demorgans_law_or (Ref 1)
    [unary_instance CNot (Val (PyBool true));
     binary_instance COr (Ref 0) (Val (PyBool false))]
  = Ret (Ref 5,
         [unary_instance CNot (Val (PyBool true));
          binary_instance COr (Ref 0) (Val (PyBool false));
          unary_instance CNot (Ref 0);
          unary_instance CNot (Val (PyBool false));
          binary_instance CAnd (Ref 2) (Ref 3);
          unary_instance CNot (Ref 4)]).
Proof. reflexivity. Qed.

(** A rewrite called on an instance of another class finds no such method. *)
Example demorgans_law_or_on_And :
  Store.demorgans_law_or (Ref 0)
    [binary_instance CAnd (Val (PyBool true)) (Val (PyBool false))]
  = Raise AttributeError /\
  demorgans_law_or (And (pybool true) (pybool false)) = Raise AttributeError.
Proof. split; reflexivity. Qed.

(** * Further properties *)

(** ** Which operands an evaluation resolves *)

Lemma resolved_Not (a : operand) :
  resolved (truth_value (Not a)) = resolved (_is_true a).
Proof.
  cbn [truth_value]. fold (_is_true a). unfold not_, test.
  destruct (result (_is_true a)) as [x | e] eqn:Ea;
    repeat (rewrite ?resolved_bind, ?result_bind, ?Ea;
            cbn [result resolved fst snd ret Monad_M M_ret negb]);
    now rewrite ?app_nil_r.
Qed.

Lemma resolved_And (a b : operand) :
  resolved (truth_value (And a b)) =
  match result (_is_true a) with
  | Ret x =>
      if truthy x then resolved (_is_true a) ++ resolved (_is_true b)
      else resolved (_is_true a)
  | Raise _ => resolved (_is_true a)
  end.
Proof.
  cbn [truth_value]. fold (_is_true a) (_is_true b). unfold and_, test.
  destruct (result (_is_true a)) as [x | e] eqn:Ea.
  - destruct (truthy x) eqn:Tx.
    + destruct (result (_is_true b)) as [y | e] eqn:Eb;
        repeat (rewrite ?resolved_bind, ?result_bind, ?Ea, ?Eb, ?Tx;
                cbn [result resolved fst snd ret Monad_M M_ret negb]).
      * destruct (truthy y);
          cbn [result resolved fst snd ret Monad_M M_ret negb];
          now rewrite !app_nil_r.
      * now rewrite !app_nil_r.
    + repeat (rewrite ?resolved_bind, ?result_bind, ?Ea, ?Tx;
              cbn [result resolved fst snd ret Monad_M M_ret negb]).
      now rewrite !app_nil_r.
  - repeat (rewrite ?resolved_bind, ?result_bind, ?Ea;
            cbn [result resolved fst snd ret Monad_M M_ret negb]).
    reflexivity.
Qed.

Lemma resolved_Or (a b : operand) :
  resolved (truth_value (Or a b)) =
  match result (_is_true a) with
  | Ret x =>
      if truthy x then resolved (_is_true a)
      else resolved (_is_true a) ++ resolved (_is_true b)
  | Raise _ => resolved (_is_true a)
  end.
Proof.
  cbn [truth_value]. fold (_is_true a) (_is_true b). unfold and_, not_, test.
  destruct (result (_is_true a)) as [x | e] eqn:Ea.
  - destruct (truthy x) eqn:Tx.
    + repeat (rewrite ?resolved_bind, ?result_bind, ?Ea, ?Tx;
              cbn [result resolved fst snd ret Monad_M M_ret negb]).
      now rewrite !app_nil_r.
    + destruct (result (_is_true b)) as [y | e] eqn:Eb;
        repeat (rewrite ?resolved_bind, ?result_bind, ?Ea, ?Eb, ?Tx;
                cbn [result resolved fst snd ret Monad_M M_ret negb]).
      * destruct (truthy y);
          cbn [result resolved fst snd ret Monad_M M_ret negb];
          now rewrite !app_nil_r.
      * now rewrite !app_nil_r.
  - repeat (rewrite ?resolved_bind, ?result_bind, ?Ea;
            cbn [result resolved fst snd ret Monad_M M_ret negb]).
    reflexivity.
Qed.

Lemma resolved_Conditional (a b : operand) :
  resolved (truth_value (Conditional a b)) =
  match result (_is_true a) with
  | Ret x =>
      if truthy x then resolved (_is_true a) ++ resolved (_is_true b)
      else resolved (_is_true a)
  | Raise _ => resolved (_is_true a)
  end.
Proof.
  cbn [truth_value]. fold (_is_true a) (_is_true b). unfold or_, not_, test.
  destruct (result (_is_true a)) as [x | e] eqn:Ea.
  - destruct (truthy x) eqn:Tx.
    + destruct (result (_is_true b)) as [y | e] eqn:Eb;
        repeat (rewrite ?resolved_bind, ?result_bind, ?Ea, ?Eb, ?Tx;
                cbn [result resolved fst snd ret Monad_M M_ret negb]).
      * destruct (truthy y);
          cbn [result resolved fst snd ret Monad_M M_ret negb];
          now rewrite !app_nil_r.
      * now rewrite !app_nil_r.
    + repeat (rewrite ?resolved_bind, ?result_bind, ?Ea, ?Tx;
              cbn [result resolved fst snd ret Monad_M M_ret negb]).
      now rewrite !app_nil_r.
  - repeat (rewrite ?resolved_bind, ?result_bind, ?Ea;
            cbn [result resolved fst snd ret Monad_M M_ret negb]).
    reflexivity.
Qed.

(** [BiConditional.truth_value] writes [_is_true(self.a)] twice: the second
    one runs unless both operands resolved to true values. *)
Lemma resolved_BiConditional (a b : operand) :
  resolved (truth_value (BiConditional a b)) =
  match result (_is_true a) with
  | Ret x =>
      if truthy x then
        match result (_is_true b) with
        | Ret y =>
            if truthy y then resolved (_is_true a) ++ resolved (_is_true b)
            else resolved (_is_true a) ++ resolved (_is_true b)
                   ++ resolved (_is_true a)
        | Raise _ => resolved (_is_true a) ++ resolved (_is_true b)
        end
      else resolved (_is_true a) ++ resolved (_is_true a)
             ++ resolved (_is_true b)
  | Raise _ => resolved (_is_true a)
  end.
Proof.
  cbn [truth_value]. fold (_is_true a) (_is_true b).
  unfold or_, and_, not_, test.
  destruct (result (_is_true a)) as [x | e] eqn:Ea.
  - destruct (truthy x) eqn:Tx.
    + destruct (result (_is_true b)) as [y | e] eqn:Eb.
      * destruct (truthy y) eqn:Ty;
          repeat (rewrite ?resolved_bind, ?result_bind, ?Ea, ?Eb, ?Tx, ?Ty;
                  cbn [result resolved fst snd ret Monad_M M_ret negb]);
          now rewrite ?app_nil_r, <- ?app_assoc.
      * repeat (rewrite ?resolved_bind, ?result_bind, ?Ea, ?Eb, ?Tx;
                cbn [result resolved fst snd ret Monad_M M_ret negb]).
        now rewrite ?app_nil_r.
    + destruct (result (_is_true b)) as [y | e] eqn:Eb;
        repeat (rewrite ?resolved_bind, ?result_bind, ?Ea, ?Eb, ?Tx;
                cbn [result resolved fst snd ret Monad_M M_ret negb]).
      * destruct (truthy y);
          cbn [result resolved fst snd ret Monad_M M_ret negb];
          now rewrite ?app_nil_r, <- ?app_assoc.
      * now rewrite ?app_nil_r, <- ?app_assoc.
  - repeat (rewrite ?resolved_bind, ?result_bind, ?Ea;
            cbn [result resolved fst snd ret Monad_M M_ret negb]).
    reflexivity.
Qed.

(** X1: [And(a, b).truth_value] resolves [a] first and stops there when
    that raises or gives a false value (the result is then the exception or
    [False]); [b] is resolved only after a true [a], and its failure is then
    the failure of the [And]. *)
Theorem and_short_circuits (a b : operand) :
  truth_value (And a b) =
  match result (_is_true a) with
  | Raise e => (resolved (_is_true a), Raise e)
  | Ret x =>
      if truthy x then
        (resolved (_is_true a) ++ resolved (_is_true b),
         match result (_is_true b) with
         | Ret y => Ret (pybool (truthy y))
         | Raise e => Raise e
         end)
      else (resolved (_is_true a), Ret (pybool false))
  end.
Proof.
  rewrite (M_eta (truth_value (And a b))), result_And, resolved_And.
  destruct (result (_is_true a)) as [x | e]; [| reflexivity].
  destruct (truthy x); reflexivity.
Qed.

(** X2: [Conditional(a, b).truth_value] resolves the antecedent first; a
    false antecedent gives [True] without resolving the consequent, which is
    resolved only after a true antecedent. *)
Theorem conditional_short_circuits (a b : operand) :
  truth_value (Conditional a b) =
  match result (_is_true a) with
  | Raise e => (resolved (_is_true a), Raise e)
  | Ret x =>
      if truthy x then
        (resolved (_is_true a) ++ resolved (_is_true b),
         match result (_is_true b) with
         | Ret y => Ret (pybool (truthy y))
         | Raise e => Raise e
         end)
      else (resolved (_is_true a), Ret (pybool true))
  end.
Proof.
  rewrite (M_eta (truth_value (Conditional a b))),
    result_Conditional, resolved_Conditional.
  destruct (result (_is_true a)) as [x | e]; [| reflexivity].
  destruct (truthy x); reflexivity.
Qed.

(** X3: [BiConditional(a, b).truth_value] always resolves both operands
    when [a] does not raise, and resolves [a] a second time unless both
    gave true values: [a, b] when both are true, [a, b, a] when only [a]
    is, and [a, a, b] when [a] is false. *)
Theorem biconditional_resolutions (a b : operand) :
  truth_value (BiConditional a b) =
  match result (_is_true a) with
  | Raise e => (resolved (_is_true a), Raise e)
  | Ret x =>
      match result (_is_true b) with
      | Raise e =>
          (if truthy x then resolved (_is_true a) ++ resolved (_is_true b)
           else resolved (_is_true a) ++ resolved (_is_true a)
                  ++ resolved (_is_true b),
           Raise e)
      | Ret y =>
          (if truthy x then
             if truthy y then resolved (_is_true a) ++ resolved (_is_true b)
             else resolved (_is_true a) ++ resolved (_is_true b)
                    ++ resolved (_is_true a)
           else resolved (_is_true a) ++ resolved (_is_true a)
                  ++ resolved (_is_true b),
           Ret (pybool (Bool.eqb (truthy x) (truthy y))))
      end
  end.
Proof.
  rewrite (M_eta (truth_value (BiConditional a b))),
    result_BiConditional, resolved_BiConditional.
  destruct (result (_is_true a)) as [x | e]; [| reflexivity].
  destruct (result (_is_true b)) as [y | e]; reflexivity.
Qed.

(** ** The cost of evaluation *)

Lemma length_resolved_is_true (x : operand) :
  List.length (resolved (_is_true x))
  = S (List.length (resolved (truth_value x))).
Proof. now rewrite resolved_is_true. Qed.

Lemma resolved_leaf (l : leaf) : resolved (truth_value (Leaf l)) = [].
Proof. destruct l as [| | | | r [b | e]]; reflexivity. Qed.

(** X4: without [BiConditional], an evaluation calls [_is_true] at most
    once for each operand slot of the tree. *)
Theorem resolutions_linear (e : operand) :
  biconditional_free e = true ->
  List.length (resolved (truth_value e)) <= occurrences e.
Proof.
  induction e as [l | a IHa | a IHa b IHb | a IHa b IHb
                 | a IHa b IHb | a IHa b IHb];
    cbn [biconditional_free occurrences]; intros Hf.
  - now rewrite resolved_leaf.
  - rewrite resolved_Not, length_resolved_is_true.
    specialize (IHa Hf). lia.
  - apply andb_prop in Hf as [Ha Hb].
    specialize (IHa Ha). specialize (IHb Hb).
    rewrite resolved_Or.
    destruct (result (_is_true a)) as [x | ex]; [destruct (truthy x) |];
      rewrite ?length_app, !length_resolved_is_true; lia.
  - apply andb_prop in Hf as [Ha Hb].
    specialize (IHa Ha). specialize (IHb Hb).
    rewrite resolved_And.
    destruct (result (_is_true a)) as [x | ex]; [destruct (truthy x) |];
      rewrite ?length_app, !length_resolved_is_true; lia.
  - apply andb_prop in Hf as [Ha Hb].
    specialize (IHa Ha). specialize (IHb Hb).
    rewrite resolved_Conditional.
    destruct (result (_is_true a)) as [x | ex]; [destruct (truthy x) |];
      rewrite ?length_app, !length_resolved_is_true; lia.
  - discriminate.
Qed.

Lemma resolutions_linear_witness :
  List.length
    (resolved (truth_value (Or (Not (pybool true))
                               (And (pybool true) (Leaf PyNone)))))
  <= occurrences (Or (Not (pybool true)) (And (pybool true) (Leaf PyNone))).
Proof.
  apply resolutions_linear. reflexivity.
Defined.

Lemma biconditional_chain_false (n : nat) :
  result (_is_true (biconditional_chain n)) = Ret (pybool false).
Proof.
  induction n as [| n IH]; [reflexivity |].
  cbn [biconditional_chain].
  rewrite result_is_true_expression by discriminate.
  rewrite result_BiConditional, IH. reflexivity.
Qed.

(** X5: nothing is memoised.  Evaluating the chain of [n] nested
    [BiConditional]s calls [_is_true] [3 * (2 ^ n - 1)] times, because each
    level resolves its first operand twice; with one more level the chain
    evaluates to [False]. *)
Theorem biconditional_chain_cost (n : nat) :
  List.length (resolved (truth_value (biconditional_chain n)))
  = 3 * (2 ^ n - 1) /\
  result (truth_value (biconditional_chain (S n))) = Ret (pybool false).
Proof.
  split.
  - induction n as [| n IH]; [reflexivity |].
    cbn [biconditional_chain].
    rewrite resolved_BiConditional, biconditional_chain_false.
    cbn [truthy pybool].
    rewrite !length_app, !length_resolved_is_true, IH.
    cbn [resolved truth_value pybool raise fst List.length].
    assert (1 <= 2 ^ n) by (apply Nat.neq_0_lt_0, Nat.pow_nonzero; lia).
    rewrite Nat.pow_succ_r'. lia.
  - cbn [biconditional_chain].
    rewrite result_BiConditional, biconditional_chain_false. reflexivity.
Qed.

(** ** Evaluation on arbitrary operands *)



(** X7: whatever its operands are (numbers, strings, [None], foreign
    objects), the [truth_value] of a connective, when it returns, is one of
    the two booleans [True] and [False]. *)
Theorem truth_value_only_booleans (e v : operand) :
  class_of e <> None ->
  result (truth_value e) = Ret v ->
  v = pybool true \/ v = pybool false.
Proof.
  intros Hc Hv.
  destruct (truth_value_returns_bool e v Hc Hv) as [[|] ->]; auto.
Qed.

Lemma truth_value_only_booleans_witness :
  pybool false = pybool true \/ pybool false = pybool false.
Proof.
  apply (truth_value_only_booleans
           (And (Leaf (PyStr "x")) (Leaf (PyInt 0))) (pybool false));
    [discriminate | reflexivity].
Defined.

(** Leaves of plain Python types resolve to themselves, and connectives
    over them to the truth-table value under Python's truth test. *)
Lemma is_true_plain (x : operand) :
  plain x = true ->
  exists v, result (_is_true x) = Ret v /\ truthy v = classical x.
Proof.
  induction x as [l | a IHa | a IHa b IHb | a IHa b IHb
                 | a IHa b IHb | a IHa b IHb]; cbn [plain]; intros Hp.
  - destruct l as [c | | n | s | r tv]; try discriminate;
      eexists; split; reflexivity.
  - destruct (IHa Hp) as (x & Ex & Tx).
    rewrite result_is_true_Not, result_Not, Ex.
    eexists; split; [reflexivity |]. cbn. now rewrite Tx.
  - apply andb_prop in Hp as [Ha Hb].
    destruct (IHa Ha) as (x & Ex & Tx). destruct (IHb Hb) as (y & Ey & Ty).
    rewrite result_is_true_expression by discriminate.
    rewrite result_Or, Ex, Ey, Tx. cbn [classical].
    destruct (classical a); eexists; split; try reflexivity.
    cbn. exact Ty.
  - apply andb_prop in Hp as [Ha Hb].
    destruct (IHa Ha) as (x & Ex & Tx). destruct (IHb Hb) as (y & Ey & Ty).
    rewrite result_is_true_expression by discriminate.
    rewrite result_And, Ex, Ey, Tx. cbn [classical].
    destruct (classical a); eexists; split; try reflexivity.
    cbn. exact Ty.
  - apply andb_prop in Hp as [Ha Hb].
    destruct (IHa Ha) as (x & Ex & Tx). destruct (IHb Hb) as (y & Ey & Ty).
    rewrite result_is_true_expression by discriminate.
    rewrite result_Conditional, Ex, Ey, Tx. cbn [classical].
    destruct (classical a); eexists; split; try reflexivity.
    cbn. exact Ty.
  - apply andb_prop in Hp as [Ha Hb].
    destruct (IHa Ha) as (x & Ex & Tx). destruct (IHb Hb) as (y & Ey & Ty).
    rewrite result_is_true_expression by discriminate.
    rewrite result_BiConditional, Ex, Ey, Tx, Ty.
    eexists; split; reflexivity.
Qed.

(** X8: a connective whose leaves are booleans, [None], integers or
    strings always evaluates, to the boolean its truth table gives when
    each leaf counts as Python's truth test has it ([None], [0] and the
    empty string false, the rest true). *)
Theorem truth_value_plain (e : operand) :
  class_of e <> None ->
  plain e = true ->
  result (truth_value e) = Ret (pybool (classical e)).
Proof.
  intros Hc Hp.
  destruct (is_true_plain e Hp) as (v & Ev & Tv).
  rewrite result_is_true_expression in Ev by assumption.
  destruct (truth_value_returns_bool e v Hc Ev) as [b ->].
  rewrite Ev. cbn in Tv. now rewrite Tv.
Qed.

Lemma truth_value_plain_witness :
  result (truth_value (Conditional (Leaf (PyStr "rain"))
                                   (Or (Leaf (PyInt 0)) (Leaf PyNone))))
  = Ret (pybool (classical (Conditional (Leaf (PyStr "rain"))
                                        (Or (Leaf (PyInt 0)) (Leaf PyNone))))).
Proof.
  apply truth_value_plain; [discriminate | reflexivity].
Defined.

(** ** Where exceptions come from *)




(** ** [__str__] on a scope of any length *)

Lemma append_nil_r (s : string) : (s ++ "")%string = s.
Proof.
  induction s as [| c s IH]; cbn; [reflexivity | now rewrite IH].
Qed.

(** X10: for operands of any number, also none, the loop of [__str__]
    appends the operand texts joined by a comma and a space, with no
    separator before the first or after the last; so [__str__] gives the
    class name and that text between parentheses. *)
Theorem str_loop_joins (k : cls) (items : list string)
        (string : String.string) :
  str_loop (Z.of_nat (List.length items) - 1) 0 items string
  = (string ++ String.concat ", " items)%string /\
  __str__ k items
  = (__name__ k ++ "(" ++ String.concat ", " items ++ ")")%string.
Proof.
  assert (L : forall acc,
             str_loop (Z.of_nat (List.length items) - 1) 0 items acc
             = (acc ++ String.concat ", " items)%string).
  { intros acc. destruct items as [| s rest].
    - cbn. now rewrite append_nil_r.
    - change (Z.of_nat (List.length (s :: rest)) - 1)%Z
        with (0 + Z.of_nat (List.length (s :: rest)) - 1)%Z.
      apply str_loop_concat. discriminate. }
  split; [apply L |].
  unfold __str__. rewrite L. now rewrite !append_assoc.
Qed.

(** ** Stores built by the constructors *)

Lemma represents_unique (h : store) (v : pyval) (t1 t2 : operand) :
  represents h v t1 -> represents h v t2 -> t1 = t2.
Proof.
  intros H1. revert t2.
  induction H1 as [l | p a ta Hp _ IHa | k p a b ta tb t Hp Hk _ IHa _ IHb];
    intros t2 H2; inversion H2; subst.
  - reflexivity.
  - match goal with
    | H : nth_error h p = Some (unary_instance CNot ?a') |- _ =>
        rewrite Hp in H; injection H as <-
    end.
    f_equal. now apply IHa.
  - match goal with
    | H : nth_error h p = Some (binary_instance _ _ _) |- _ =>
        rewrite Hp in H; discriminate H
    end.
  - match goal with
    | H : nth_error h p = Some (unary_instance _ _) |- _ =>
        rewrite Hp in H; discriminate H
    end.
  - match goal with
    | H : nth_error h p = Some (binary_instance ?k' ?a' ?b') |- _ =>
        rewrite Hp in H; injection H as <- <- <-
    end.
    match goal with
    | Ha' : represents h a ?ta', Hb' : represents h b ?tb' |- _ =>
        rewrite <- (IHa _ Ha'), <- (IHb _ Hb') in *
    end.
    congruence.
Qed.



Lemma valid_le (n m : nat) (v : pyval) : valid n v -> n <= m -> valid m v.
Proof. destruct v; cbn; [trivial | lia]. Qed.

Lemma wf_store_denotes_below (h : store) :
  wf_store h ->
  forall n v, n <= List.length h -> valid n v -> exists t, represents h v t.
Proof.
  intros Hwf. induction n as [| n IH]; intros v Hn Hv.
  - destruct v as [l | q]; [exists (Leaf l); constructor | cbn in Hv; lia].
  - destruct v as [l | q]; [exists (Leaf l); constructor |].
    cbn in Hv.
    destruct (nth_error h q) as [o |] eqn:Hq;
      [| apply nth_error_None in Hq; lia].
    destruct (Hwf q o Hq) as [(a & -> & Va) | (k & a & b & Hk & -> & Va & Vb)].
    + destruct (IH a ltac:(lia) (valid_le q n a Va ltac:(lia))) as [ta Ha].
      exists (Not ta). eapply rep_Not; eassumption.
    + destruct (IH a ltac:(lia) (valid_le q n a Va ltac:(lia))) as [ta Ha].
      destruct (IH b ltac:(lia) (valid_le q n b Vb ltac:(lia))) as [tb Hb].
      destruct (binary k ta tb) as [t |] eqn:Ht;
        [| destruct k; [now destruct Hk | discriminate ..]].
      exists t. eapply rep_binary; eassumption.
Qed.

(** X12: in a store where every instance is as its constructor left it and
    refers only to instances created before it, every value (a leaf or an
    existing reference) stands for a tree: the object graph has no cycle
    and no dangling reference. *)
Theorem wf_store_denotes (h : store) (v : pyval) :
  wf_store h ->
  valid (List.length h) v ->
  exists t, represents h v t.
Proof.
  intros Hwf Hv. now apply (wf_store_denotes_below h Hwf (List.length h) v).
Qed.

Lemma wf_store_nil : wf_store [].
Proof. intros [| p] o H; discriminate H. Qed.

Lemma wf_store_snoc (h : store) (o : instance) :
  wf_store h -> wf_instance (List.length h) o -> wf_store (h ++ [o]).
Proof.
  intros Hwf Ho p o' Hp.
  destruct (Nat.lt_ge_cases p (List.length h)) as [Hlt | Hge].
  - rewrite nth_error_app1 in Hp by assumption. now apply Hwf.
  - rewrite nth_error_app2 in Hp by assumption.
    destruct (p - List.length h) as [| d] eqn:Hd.
    + cbn in Hp. injection Hp as <-.
      replace p with (List.length h) by lia. exact Ho.
    + destruct d; discriminate Hp.
Qed.

Lemma wf_store_witness_store :
  wf_store [unary_instance CNot (Val (PyBool true));
            binary_instance COr (Ref 0) (Val (PyBool false))].
Proof.
  apply (wf_store_snoc [unary_instance CNot (Val (PyBool true))]).
  - apply (wf_store_snoc []); [apply wf_store_nil |].
    left. eexists. split; [reflexivity | exact I].
  - right. exists COr, (Ref 0), (Val (PyBool false)).
    repeat split; [discriminate | cbn; lia].
Qed.

Lemma wf_store_denotes_witness :
  exists t,
    represents [unary_instance CNot (Val (PyBool true));
                binary_instance COr (Ref 0) (Val (PyBool false))]
               (Ref 1) t.
Proof.
  apply wf_store_denotes; [apply wf_store_witness_store | cbn; lia].
Defined.



Lemma wf_store_app_length (h : store) (o : instance) :
  List.length (h ++ [o]) = S (List.length h).
Proof. rewrite length_app. cbn. lia. Qed.

(** What [construct] does, for a store of any shape. *)
Lemma construct_extends (t : operand) (h : store) :
  wf_store h ->
  exists r fresh,
    construct t h = Ret (r, h ++ fresh) /\
    wf_store (h ++ fresh) /\
    valid (List.length (h ++ fresh)) r /\
    represents (h ++ fresh) r t.
Proof.
  revert h.
  assert (Hbin : forall k a b mk,
             (forall h, wf_store h ->
                exists r fresh, construct a h = Ret (r, h ++ fresh) /\
                  wf_store (h ++ fresh) /\
                  valid (List.length (h ++ fresh)) r /\
                  represents (h ++ fresh) r a) ->
             (forall h, wf_store h ->
                exists r fresh, construct b h = Ret (r, h ++ fresh) /\
                  wf_store (h ++ fresh) /\
                  valid (List.length (h ++ fresh)) r /\
                  represents (h ++ fresh) r b) ->
             k <> CNot ->
             binary k a b = Some mk ->
             forall h, wf_store h ->
               exists r fresh,
                 (x <- construct a ;; y <- construct b ;; new_binary k x y) h
                 = Ret (r, h ++ fresh) /\
                 wf_store (h ++ fresh) /\
                 valid (List.length (h ++ fresh)) r /\
                 represents (h ++ fresh) r mk).
  { intros k a b mk IHa IHb Hk Hmk h Hwf.
    destruct (IHa h Hwf) as (x & f1 & Ea & W1 & V1 & R1).
    destruct (IHb (h ++ f1) W1) as (y & f2 & Eb & W2 & V2 & R2).
    exists (Ref (List.length ((h ++ f1) ++ f2))),
           (f1 ++ f2 ++ [binary_instance k x y]).
    st_unfold. rewrite Ea, Eb, new_binary_spec.
    replace (h ++ f1 ++ f2 ++ [binary_instance k x y])
      with (((h ++ f1) ++ f2) ++ [binary_instance k x y])
      by now rewrite <- !app_assoc.
    split; [reflexivity |]. split; [| split].
    - apply wf_store_snoc; [assumption |]. right. exists k, x, y.
      repeat split; try assumption.
      apply (valid_le _ _ _ V1). rewrite (length_app (h ++ f1)). lia.
    - cbn. rewrite wf_store_app_length. lia.
    - eapply represents_new_binary; [exact Hmk | | exact R2].
      now apply represents_ext. }
  induction t as [l | a IHa | a IHa b IHb | a IHa b IHb
                 | a IHa b IHb | a IHa b IHb]; intros h Hwf.
  - exists (Val l), []. rewrite app_nil_r.
    repeat split; [assumption | constructor].
  - destruct (IHa h Hwf) as (x & f1 & Ea & W1 & V1 & R1).
    exists (Ref (List.length (h ++ f1))), (f1 ++ [unary_instance CNot x]).
    cbn [construct]. st_unfold. rewrite Ea, new_Not_spec.
    rewrite app_assoc.
    split; [reflexivity |]. split; [| split].
    + apply wf_store_snoc; [assumption |]. left. now exists x.
    + cbn. rewrite wf_store_app_length. lia.
    + now apply represents_new_Not.
  - apply (Hbin COr a b); [assumption .. | discriminate | reflexivity | assumption].
  - apply (Hbin CAnd a b); [assumption .. | discriminate | reflexivity | assumption].
  - apply (Hbin CConditional a b);
      [assumption .. | discriminate | reflexivity | assumption].
  - apply (Hbin CBiConditional a b);
      [assumption .. | discriminate | reflexivity | assumption].
Qed.

(** X14: every tree can be built.  Evaluating the nested constructor calls
    that spell a tree [t] never fails, only adds instances after the old
    ones, keeps the store well formed, and returns a value that stands for
    [t] and for no other tree; this holds from the empty store on. *)
Theorem construct_represents (t : operand) (h : store) :
  wf_store h ->
  exists r fresh,
    construct t h = Ret (r, h ++ fresh) /\
    wf_store (h ++ fresh) /\
    represents (h ++ fresh) r t /\
    (forall t', represents (h ++ fresh) r t' -> t' = t).
Proof.
  intros Hwf.
  destruct (construct_extends t h Hwf) as (r & fresh & E & W & _ & R).
  exists r, fresh. repeat split; try assumption.
  intros t' R'. exact (represents_unique _ _ _ _ R' R).
Qed.

Lemma construct_represents_witness :
  exists r fresh,
    construct (Or (Not (pybool true)) (pybool false)) [] = Ret (r, [] ++ fresh) /\
    wf_store ([] ++ fresh) /\
    represents ([] ++ fresh) r (Or (Not (pybool true)) (pybool false)) /\
    (forall t', represents ([] ++ fresh) r t' ->
                t' = Or (Not (pybool true)) (pybool false)).
Proof.
  apply construct_represents. apply wf_store_nil.
Defined.

Example construct_run :
  construct (Or (Not (pybool true)) (pybool false)) []
  = Ret (Ref 1, [unary_instance CNot (Val (PyBool true));
                 binary_instance COr (Ref 0) (Val (PyBool false))]).
Proof. reflexivity. Qed.

(** X15: on a well-formed store, each rewrite called on an instance of its
    class succeeds, returns a reference to an instance of the new store,
    and leaves a well-formed store: the new instances refer only to what
    existed before them, so no rewrite can create a cycle. *)
Theorem rewrites_preserve_wf (w : rewrite) (h : store) (p : nat)
        (a b : pyval) :
  wf_store h ->
  nth_error h p = Some (binary_instance (receiver_class w) a b) ->
  exists r h',
    run_store w (Ref p) h = Ret (Ref r, h') /\
    wf_store h' /\
    r < List.length h' /\
    exists t, represents h' (Ref r) t.
Proof.
  intros Hwf Hp.
  assert (Hlt : p < List.length h) by (apply nth_error_Some; congruence).
  assert (Vab : valid (List.length h) a /\ valid (List.length h) b).
  { destruct (Hwf p _ Hp) as [(x & E & _) | (k & x & y & _ & E & Vx & Vy)];
      [discriminate E |].
    injection E as _ <- <-.
    split; eapply valid_le; try eassumption; lia. }
  destruct Vab as [Va Vb].
  assert (Hrun : exists r h',
             run_store w (Ref p) h = Ret (Ref r, h') /\ wf_store h' /\
             r < List.length h').
  { destruct w; cbn [receiver_class run_store] in *.
    - rewrite (demorgans_law_or_store _ _ _ _ Hp). do 2 eexists.
      split; [reflexivity |]. split; [| rewrite length_app; cbn; lia].
      change [unary_instance CNot a; unary_instance CNot b;
              binary_instance CAnd (Ref (List.length h))
                (Ref (List.length h + 1));
              unary_instance CNot (Ref (List.length h + 2))]
        with ([unary_instance CNot a] ++ [unary_instance CNot b]
              ++ [binary_instance CAnd (Ref (List.length h))
                    (Ref (List.length h + 1))]
              ++ [unary_instance CNot (Ref (List.length h + 2))]).
      rewrite !app_assoc.
      repeat (apply wf_store_snoc); try assumption;
        rewrite ?length_app; cbn [List.length];
        [ left; eexists; split; [reflexivity | assumption]
        | left; eexists; split; [reflexivity |];
          eapply valid_le; [eassumption | lia]
        | right; do 3 eexists;
          split; [| split; [reflexivity | cbn; lia]]; discriminate
        | left; eexists; split; [reflexivity | cbn; lia] ].
    - rewrite (demorgan_law_and_store _ _ _ _ Hp). do 2 eexists.
      split; [reflexivity |]. split; [| rewrite length_app; cbn; lia].
      change [unary_instance CNot a; unary_instance CNot b;
              binary_instance COr (Ref (List.length h))
                (Ref (List.length h + 1));
              unary_instance CNot (Ref (List.length h + 2))]
        with ([unary_instance CNot a] ++ [unary_instance CNot b]
              ++ [binary_instance COr (Ref (List.length h))
                    (Ref (List.length h + 1))]
              ++ [unary_instance CNot (Ref (List.length h + 2))]).
      rewrite !app_assoc.
      repeat (apply wf_store_snoc); try assumption;
        rewrite ?length_app; cbn [List.length];
        [ left; eexists; split; [reflexivity | assumption]
        | left; eexists; split; [reflexivity |];
          eapply valid_le; [eassumption | lia]
        | right; do 3 eexists;
          split; [| split; [reflexivity | cbn; lia]]; discriminate
        | left; eexists; split; [reflexivity | cbn; lia] ].
    - rewrite (disjunction_convert_store _ _ _ _ Hp). do 2 eexists.
      split; [reflexivity |]. split; [| rewrite length_app; cbn; lia].
      change [unary_instance CNot a;
              binary_instance COr (Ref (List.length h)) b]
        with ([unary_instance CNot a]
              ++ [binary_instance COr (Ref (List.length h)) b]).
      rewrite !app_assoc.
      repeat (apply wf_store_snoc); try assumption;
        rewrite ?length_app; cbn [List.length];
        [ left; eexists; split; [reflexivity | assumption]
        | right; do 3 eexists;
          split; [| split; [reflexivity | split; [cbn; lia |]]];
          [discriminate | eapply valid_le; [eassumption | lia]] ].
    - rewrite (conditional_convert_store _ _ _ _ Hp). do 2 eexists.
      split; [reflexivity |]. split; [| rewrite length_app; cbn; lia].
      change [binary_instance CConditional a b;
              binary_instance CConditional b a;
              binary_instance CAnd (Ref (List.length h))
                (Ref (List.length h + 1))]
        with ([binary_instance CConditional a b]
              ++ [binary_instance CConditional b a]
              ++ [binary_instance CAnd (Ref (List.length h))
                    (Ref (List.length h + 1))]).
      rewrite !app_assoc.
      repeat (apply wf_store_snoc); try assumption;
        rewrite ?length_app; cbn [List.length];
        [ right; do 3 eexists;
          split; [| split; [reflexivity | split; assumption]]; discriminate
        | right; do 3 eexists;
          split; [| split; [reflexivity | split]];
          [discriminate | ..]; (eapply valid_le; [eassumption | lia])
        | right; do 3 eexists;
          split; [| split; [reflexivity | cbn; lia]]; discriminate ]. }
  destruct Hrun as (r & h' & E & W & L).
  exists r, h'. repeat split; try assumption.
  apply wf_store_denotes_below with (n := List.length h');
    [assumption | lia | exact L].
Qed.

Lemma rewrites_preserve_wf_witness :
  exists r h',
    Store.disjunction_convert (Ref 1)
      [unary_instance CNot (Val (PyBool true));
       binary_instance CConditional (Ref 0) (Val (PyInt 7))]
    = Ret (Ref r, h') /\
    wf_store h' /\
    r < List.length h' /\
    exists t, represents h' (Ref r) t.
Proof.
  apply (rewrites_preserve_wf DisjunctionConvert
           [unary_instance CNot (Val (PyBool true));
            binary_instance CConditional (Ref 0) (Val (PyInt 7))]
           1 (Ref 0) (Val (PyInt 7))).
  - apply (wf_store_snoc [unary_instance CNot (Val (PyBool true))]).
    + apply (wf_store_snoc []); [apply wf_store_nil |].
      left. eexists. split; [reflexivity | exact I].
    + right. exists CConditional, (Ref 0), (Val (PyInt 7)).
      repeat split; [discriminate | cbn; lia].
  - reflexivity.
Defined.

(** ** Double negation on the object store *)

Lemma read_only_ret {A} (a : A) : read_only (ret a : St A).
Proof. intros h r h' [= _ <-]. reflexivity. Qed.

Lemma read_only_raise {A} (e : exn) : read_only (@St_raise A e).
Proof. intros h r h' H. discriminate H. Qed.

Lemma read_only_bind {A B} (m : St A) (f : A -> St B) :
  read_only m -> (forall a, read_only (f a)) -> read_only (bind m f).
Proof.
  intros Hm Hf h r h'. st_unfold.
  destruct (m h) as [[a h1] | e] eqn:E; [| discriminate].
  intros Hr. rewrite <- (Hm _ _ _ E). exact (Hf _ _ _ _ Hr).
Qed.

Lemma read_only_load (p : nat) : read_only (load p).
Proof.
  intros h r h'. unfold load.
  destruct (nth_error h p); [intros [= _ <-]; reflexivity | discriminate].
Qed.

Lemma read_only_attr {A} (get : instance -> option A) (p : nat) :
  read_only (attr get p).
Proof.
  unfold attr. apply read_only_bind; [apply read_only_load |].
  intros o. destruct (get o); [apply read_only_ret | apply read_only_raise].
Qed.

Lemma read_only_method {A} (k : cls) (body : nat -> St A) (self : pyval) :
  (forall p, read_only (body p)) -> read_only (method k body self).
Proof.
  intros Hb. destruct self as [l | p]; [apply read_only_raise |].
  cbn [method]. apply read_only_bind; [apply read_only_load |].
  intros o.
  destruct (klass o), k; first [apply Hb | apply read_only_raise].
Qed.

Lemma read_only_isinstance_Not (v : pyval) :
  read_only (StoreNot.isinstance_Not v).
Proof.
  destruct v as [l | q]; [apply read_only_ret |].
  apply read_only_bind; [apply read_only_load |].
  intros o. apply read_only_ret.
Qed.

(** X16: [can_be_double_negated] and [double_negation] construct nothing
    and assign nothing: whenever they return, the store is the one they
    were called in. *)
Theorem double_negation_read_only (self : pyval) :
  read_only (StoreNot.can_be_double_negated self) /\
  read_only (StoreNot.double_negation self).
Proof.
  split; apply read_only_method; intros p;
    (apply read_only_bind; [apply read_only_attr |]); intros a;
    (apply read_only_bind; [apply read_only_isinstance_Not |]);
    intros [|]; try apply read_only_ret.
  apply read_only_bind; [apply read_only_attr |].
  intros [l | q]; [apply read_only_raise | apply read_only_attr].
Qed.

Lemma method_Not_ok {A} (body : nat -> St A) (h : store) (p : nat)
      (a : pyval) :
  nth_error h p = Some (unary_instance CNot a) ->
  method CNot body (Ref p) h = body p h.
Proof.
  intros Hp. unfold method. st_unfold.
  now rewrite (load_ok _ _ _ Hp).
Qed.

(** X17: on a receiver that stands for the tree [Not(ta)], the two methods
    do on the store what they do on the tree.  [can_be_double_negated]
    gives the same boolean; [double_negation] gives a value that stands for
    the tree the method on trees returns, in an unchanged store: [None]
    when the operand is no [Not], and otherwise the very value the inner
    [Not] holds, shared with the receiver and not copied. *)
Theorem double_negation_on_store (h : store) (p : nat) (ta : operand) :
  represents h (Ref p) (Not ta) ->
  (exists c : bool,
      StoreNot.can_be_double_negated (Ref p) h = Ret (Val (PyBool c), h) /\
      can_be_double_negated (Not ta) = Ret (pybool c)) /\
  (exists r t',
      StoreNot.double_negation (Ref p) h = Ret (r, h) /\
      double_negation (Not ta) = Ret t' /\
      represents h r t' /\
      (forall q x,
          nth_error h p = Some (unary_instance CNot (Ref q)) ->
          nth_error h q = Some (unary_instance CNot x) ->
          r = x)).
Proof.
  intros Hrep. inversion Hrep as [| p' a ta' Hp Ha | k p' a b ta' tb t Hp Hk];
    subst; [| destruct k; discriminate Hk].
  unfold StoreNot.can_be_double_negated, StoreNot.double_negation.
  rewrite !(method_Not_ok _ _ _ _ Hp). st_unfold.
  rewrite (attr_ok attr_a h p _ a Hp eq_refl).
  inversion Ha as [l | q x tx Hq Hx | k q x y tx ty t Hq Hk Hx Hy]; subst.
  - cbn [StoreNot.isinstance_Not]. st_unfold. split.
    + exists false. split; reflexivity.
    + exists (Val PyNone), (Leaf PyNone).
      repeat split; [constructor |].
      intros q x Hp'. rewrite Hp in Hp'. discriminate Hp'.
  - cbn [StoreNot.isinstance_Not]. st_unfold.
    rewrite (load_ok _ _ _ Hq). cbn [klass unary_instance]. split.
    + exists true. split; reflexivity.
    + exists x, tx.
      rewrite (attr_ok attr_a h p _ (Ref q) Hp eq_refl).
      cbn [StoreNot.dot_a].
      rewrite (attr_ok attr_a h q _ x Hq eq_refl).
      repeat split; [assumption |].
      intros q' x' Hp' Hq'. rewrite Hp in Hp'. injection Hp' as <-.
      rewrite Hq in Hq'. now injection Hq' as <-.
  - cbn [StoreNot.isinstance_Not]. st_unfold.
    rewrite (load_ok _ _ _ Hq). cbn [klass binary_instance].
    assert (Hk' : k <> CNot) by (intros ->; discriminate Hk).
    split.
    + exists false. split; [now destruct k |].
      destruct k; try (now destruct Hk'); injection Hk as <-; reflexivity.
    + exists (Val PyNone), (Leaf PyNone).
      repeat split; [now destruct k | | constructor |].
      * destruct k; try (now destruct Hk'); injection Hk as <-; reflexivity.
      * intros q' x' Hp' Hq'. rewrite Hp in Hp'. injection Hp' as <-.
        rewrite Hq in Hq'. discriminate Hq'.
Qed.

Lemma double_negation_on_store_witness :
  let h := [unary_instance CNot (Val (PyInt 3));
            unary_instance CNot (Ref 0);
            unary_instance CNot (Ref 1)] in
  (exists c : bool,
      StoreNot.can_be_double_negated (Ref 2) h = Ret (Val (PyBool c), h) /\
      can_be_double_negated (Not (Not (Not (Leaf (PyInt 3)))))
      = Ret (pybool c)) /\
  (exists r t',
      StoreNot.double_negation (Ref 2) h = Ret (r, h) /\
      double_negation (Not (Not (Not (Leaf (PyInt 3))))) = Ret t' /\
      represents h r t' /\
      (forall q x,
          nth_error h 2 = Some (unary_instance CNot (Ref q)) ->
          nth_error h q = Some (unary_instance CNot x) ->
          r = x)).
Proof.
  cbv zeta.
  apply (double_negation_on_store
           [unary_instance CNot (Val (PyInt 3));
            unary_instance CNot (Ref 0);
            unary_instance CNot (Ref 1)]
           2 (Not (Not (Leaf (PyInt 3))))).
  eapply rep_Not; [reflexivity |].
  eapply rep_Not; [reflexivity |].
  eapply rep_Not; [reflexivity | constructor].
Defined.

Example double_negation_store_run :
  StoreNot.double_negation (Ref 2)
    [unary_instance CNot (Val (PyInt 3));
     unary_instance CNot (Ref 0);
     unary_instance CNot (Ref 1)]
  = Ret (Ref 0,
         [unary_instance CNot (Val (PyInt 3));
          unary_instance CNot (Ref 0);
          unary_instance CNot (Ref 1)]).
Proof. reflexivity. Qed.

(** ** Evaluation on the store and on trees *)

Lemma truthy_represents (h : store) (v : pyval) (t : operand) :
  represents h v t -> StoreEval.truthy v = truthy t.
Proof.
  destruct 1 as [l | p a ta Hp Ha | k p a b ta tb t Hp Hk Ha Hb].
  - reflexivity.
  - reflexivity.
  - destruct k; try discriminate Hk; injection Hk as <-; reflexivity.
Qed.

Lemma agree_is_true (h : store) (v : pyval) (t : operand)
      (r : StoreEval.R pyval) :
  represents h v t ->
  agree h r (result (truth_value t)) ->
  agree h (StoreEval.try_except_AttributeError r (ret v))
        (result (_is_true t)).
Proof.
  intros Hv Hr. rewrite result_is_true.
  destruct (result (truth_value t)) as [t' | []]; cbn [agree] in *.
  - destruct Hr as (v' & -> & Hv'). now exists v'.
  - subst r. now exists v.
  - now subst r.
  - now subst r.
  - now subst r.
Qed.

Lemma resolve_ok (tv : pyval -> StoreEval.R pyval)
      (get : instance -> option pyval) (h : store) (p : nat)
      (o : instance) (a : pyval) :
  nth_error h p = Some o ->
  get o = Some a ->
  StoreEval.resolve tv get h p = StoreEval.is_true_with tv a.
Proof.
  intros Hp Hg. unfold StoreEval.resolve, StoreEval.read.
  now rewrite (attr_ok get h p o a Hp Hg).
Qed.

Lemma store_truth_value_Ref (n : nat) (h : store) (p : nat) (o : instance)
      (a : pyval) :
  nth_error h p = Some o ->
  attr_a o = Some a ->
  StoreEval.truth_value (S n) h (Ref p) =
  let ra := StoreEval._is_true n h a in
  let rb := StoreEval.resolve (StoreEval.truth_value n h) attr_b h p in
  match klass o with
  | CNot =>
      c <- StoreEval.not_ (StoreEval.test ra) ;;
      ret (StoreEval.vbool c)
  | COr =>
      c <- StoreEval.and_ (StoreEval.not_ (StoreEval.test ra))
                          (StoreEval.not_ (StoreEval.test rb)) ;;
      if c then ret (StoreEval.vbool false) else ret (StoreEval.vbool true)
  | CAnd =>
      c <- StoreEval.and_ (StoreEval.test ra) (StoreEval.test rb) ;;
      if c then ret (StoreEval.vbool true) else ret (StoreEval.vbool false)
  | CConditional =>
      c <- StoreEval.or_ (StoreEval.not_ (StoreEval.test ra))
                         (StoreEval.test rb) ;;
      if c then ret (StoreEval.vbool true) else ret (StoreEval.vbool false)
  | CBiConditional =>
      c <- StoreEval.or_
             (StoreEval.and_ (StoreEval.test ra) (StoreEval.test rb))
             (StoreEval.not_
                (StoreEval.or_ (StoreEval.test ra) (StoreEval.test rb))) ;;
      if c then ret (StoreEval.vbool true) else ret (StoreEval.vbool false)
  end.
Proof.
  intros Hp Ha. cbn [StoreEval.truth_value]. unfold StoreEval.read at 1.
  rewrite (load_ok _ _ _ Hp).
  cbn [bind StoreEval.Monad_R StoreEval.R_bind].
  rewrite (resolve_ok _ attr_a h p o a Hp Ha). reflexivity.
Qed.

(** Closes a goal [agree h (Some (Ret (vbool c))) (Ret (pybool c))]. *)
Ltac agree_bool :=
  cbn [agree]; eexists; split; [reflexivity | constructor].

Lemma store_truth_value_agrees (h : store) (v : pyval) (t : operand) :
  represents h v t ->
  forall fuel, depth t < fuel ->
    agree h (StoreEval.truth_value fuel h v) (result (truth_value t)).
Proof.
  induction 1 as [l | p a ta Hp Ha IHa
                 | k p a b ta tb t Hp Hk Ha IHa Hb IHb];
    intros fuel Hfuel.
  - destruct fuel as [| n]; [lia |].
    destruct l as [c | | z | s | r [c | e]]; cbn; try reflexivity.
    eexists; split; [reflexivity | constructor].
  - destruct fuel as [| n]; [cbn in Hfuel; lia |].
    cbn [depth] in Hfuel.
    pose proof (agree_is_true _ _ _ _ Ha (IHa n ltac:(lia))) as Ia.
    change (agree h (StoreEval._is_true n h a) (result (_is_true ta))) in Ia.
    rewrite (store_truth_value_Ref n h p _ a Hp eq_refl).
    cbn zeta. cbn [klass unary_instance]. rewrite result_Not.
    destruct (result (_is_true ta)) as [x | e]; cbn [agree] in Ia.
    + destruct Ia as (va & -> & Ra).
      cbn. rewrite (truthy_represents _ _ _ Ra). agree_bool.
    + rewrite Ia. reflexivity.
  - destruct fuel as [| n]; [lia |].
    assert (Hda : depth ta < n /\ depth tb < n).
    { destruct k; try discriminate Hk; injection Hk as <-;
        cbn [depth] in Hfuel; lia. }
    destruct Hda as [Hda Hdb].
    pose proof (agree_is_true _ _ _ _ Ha (IHa n Hda)) as Ia.
    pose proof (agree_is_true _ _ _ _ Hb (IHb n Hdb)) as Ib.
    change (agree h (StoreEval._is_true n h a) (result (_is_true ta))) in Ia.
    change (agree h (StoreEval._is_true n h b) (result (_is_true tb))) in Ib.
    rewrite (store_truth_value_Ref n h p _ a Hp eq_refl).
    rewrite (resolve_ok _ attr_b h p _ b Hp eq_refl).
    change (StoreEval.is_true_with (StoreEval.truth_value n h) b)
      with (StoreEval._is_true n h b).
    cbn zeta. cbn [klass binary_instance].
    destruct k; try discriminate Hk; injection Hk as <-;
      [ rewrite result_Or | rewrite result_And
      | rewrite result_Conditional | rewrite result_BiConditional ];
      (destruct (result (_is_true ta)) as [x | ea]; cbn [agree] in Ia;
       [ destruct Ia as (va & -> & Ra);
         rewrite <- (truthy_represents _ _ _ Ra)
       | rewrite Ia; reflexivity ]);
      (destruct (result (_is_true tb)) as [y | eb]; cbn [agree] in Ib;
       [ destruct Ib as (vb & -> & Rb);
         rewrite <- (truthy_represents _ _ _ Rb)
       | rewrite Ib ]);
      cbn; destruct (StoreEval.truthy va); cbn;
      try destruct (StoreEval.truthy vb); cbn;
      first [reflexivity | agree_bool].
Qed.

(** X18: evaluation on objects and on trees agree.  For a value that
    stands for the tree [t], [truth_value] and [_is_true] read on the store
    with more nested calls allowed than [t] is deep end as they do on [t]:
    with the same exception, or with a value standing for the same
    result; they never run out of calls. *)
Theorem store_evaluation_agrees (h : store) (v : pyval) (t : operand)
        (fuel : nat) :
  represents h v t ->
  depth t < fuel ->
  agree h (StoreEval.truth_value fuel h v) (result (truth_value t)) /\
  agree h (StoreEval._is_true fuel h v) (result (_is_true t)) /\
  StoreEval.truth_value fuel h v <> None.
Proof.
  intros Hrep Hfuel.
  pose proof (store_truth_value_agrees h v t Hrep fuel Hfuel) as Ht.
  split; [exact Ht |]. split; [now apply agree_is_true |].
  destruct (result (truth_value t)); cbn [agree] in Ht.
  - destruct Ht as (v' & -> & _). discriminate.
  - rewrite Ht. discriminate.
Qed.

Lemma store_evaluation_agrees_witness :
  let h := [unary_instance CNot (Val (PyInt 0));
            binary_instance CBiConditional (Ref 0) (Ref 0)] in
  let t := BiConditional (Not (Leaf (PyInt 0))) (Not (Leaf (PyInt 0))) in
  agree h (StoreEval.truth_value 3 h (Ref 1)) (result (truth_value t)) /\
  agree h (StoreEval._is_true 3 h (Ref 1)) (result (_is_true t)) /\
  StoreEval.truth_value 3 h (Ref 1) <> None.
Proof.
  cbv zeta.
  apply store_evaluation_agrees.
  - eapply rep_binary; [reflexivity | reflexivity | |];
      (eapply rep_Not; [reflexivity | constructor]).
  - cbn. lia.
Defined.

(** A formula built by constructor calls and then evaluated: the operand
    [Not(0)] is shared by both slots of the [BiConditional]. *)
Example store_evaluation_run :
  StoreEval.truth_value 3
    [unary_instance CNot (Val (PyInt 0));
     binary_instance CBiConditional (Ref 0) (Ref 0)] (Ref 1)
  = Some (Ret (Val (PyBool true))) /\
  StoreEval.truth_value 1
    [unary_instance CNot (Val (PyInt 0));
     binary_instance CBiConditional (Ref 0) (Ref 0)] (Ref 1)
  = None.
Proof. split; reflexivity. Qed.
